(** * marapp-services: the asynchronous data-lifecycle subsystem

    A shallow embedding of these parts of the service:

    - [src/middlewares/subscriber.ts]: the SNS subscription middleware
      ([handleSNSMessage], [handleSubscriptionResponse]);
    - the S3 service ([s3StreamUpload], [s3KeyExists],
      [createLifecyclePolicy], [getStorageUrl]);
    - the Mongoose model helper [checkWorkspaceRefs], the transform of the
      default [schemaOptions], and the page of groups that the
      organizations router computes.

    Async functions are embedded in a small state-and-exception monad over a
    world that records the log, the outbound calls and the state of the
    Express response.  What the repository does not define (the [config]
    constants, [JSON.parse], [url-join], the HTTP client and the S3 client)
    is taken through type classes. *)

From Stdlib Require Import ZArith String Ascii List Bool Lia.
From stdpp Require Import base option gmap strings list pretty.

Open Scope string_scope.
Open Scope Z_scope.

(** ** JavaScript values *)

Module JS.

#[warnings="-register-all"]
Inductive JsValue : Type :=
| JsUndefined
| JsNull
| JsBool (b : bool)
| JsNum (n : Z)
| JsStr (s : string)
| JsArr (items : list JsValue)
| JsObj (fields : list (string * JsValue)).

(** The classes of thrown values that the three modules tell apart.
    [SubscriptionError] and [DocumentError] extend [ExposedError]
    ([message], [code]); [S3Error] and [UploadError] are made with
    [makeError] over [Error]; [PlainError] is [Error] itself; anything a
    library throws is a [ForeignError] carrying its class name. *)
Inductive ErrorClass : Type :=
| SubscriptionError
| DocumentError
| S3Error
| UploadError
| PlainError
| ForeignError (name : string).

#[export] Instance ErrorClass_eq_dec : EqDecision ErrorClass.
Proof. solve_decision. Defined.

Record JsError : Type := mkError {
  err_class : ErrorClass;
  err_message : string;
  err_code : JsValue;
}.

(** [err instanceof C] *)
Definition instanceof (err : JsError) (C : ErrorClass) : bool :=
  bool_decide (err_class err = C).

(** ToBoolean: the falsy values are [undefined], [null], [false], [0] and
    the empty string. *)
Definition truthy (v : JsValue) : bool :=
  match v with
  | JsUndefined | JsNull => false
  | JsBool b => b
  | JsNum n => negb (n =? 0)
  | JsStr s => negb (bool_decide (s = EmptyString))
  | JsArr _ | JsObj _ => true
  end.

(** [v === s] for a string [s]. *)
Definition strict_eq_str (v : JsValue) (s : string) : bool :=
  match v with
  | JsStr t => bool_decide (t = s)
  | _ => false
  end.

Fixpoint assoc (k : string) (fields : list (string * JsValue)) : JsValue :=
  match fields with
  | [] => JsUndefined
  | (k', v) :: rest => if bool_decide (k' = k) then v else assoc k rest
  end.

(** [v[k]] on a value that is neither [undefined] nor [null], for a key
    [k] that is not a built-in property of strings, arrays or
    [Object.prototype] (the modules read [Type], [SubscribeURL],
    [Message] and [UnsubscribeURL] only). *)
Definition get_prop (v : JsValue) (k : string) : JsValue :=
  match v with
  | JsObj fields => assoc k fields
  | _ => JsUndefined
  end.

Definition join_with (sep : string) (parts : list string) : string :=
  match parts with
  | [] => EmptyString
  | p :: ps => fold_left (fun acc q => acc +:+ sep +:+ q) ps p
  end.

(** ToString, as a template literal applies it. *)
Fixpoint to_string (v : JsValue) : string :=
  match v with
  | JsUndefined => "undefined"
  | JsNull => "null"
  | JsBool true => "true"
  | JsBool false => "false"
  | JsNum n => pretty n
  | JsStr s => s
  | JsArr items =>
      join_with ","
        (map (fun x => match x with
                       | JsUndefined | JsNull => EmptyString
                       | _ => to_string x
                       end) items)
  | JsObj _ => "[object Object]"
  end.

(** A value of type [string | undefined] inside a template literal. *)
Definition render (o : option string) : string :=
  match o with
  | Some s => s
  | None => "undefined"
  end.

(** lodash [isString] and [isArray]. *)
Definition isString (v : JsValue) : bool :=
  match v with JsStr _ => true | _ => false end.

Definition isArray (v : JsValue) : bool :=
  match v with JsArr _ => true | _ => false end.

Definition lower_ascii (c : ascii) : ascii :=
  let n := nat_of_ascii c in
  if ((65 <=? n)%nat && (n <=? 90)%nat)%bool then ascii_of_nat (n + 32) else c.

Fixpoint toLowerCase (s : string) : string :=
  match s with
  | EmptyString => EmptyString
  | String c rest => String (lower_ascii c) (toLowerCase rest)
  end.

End JS.
Export JS.

(** ** Logging *)

Inductive Level : Type := LvlDebug | LvlError.

#[export] Instance Level_eq_dec : EqDecision Level.
Proof. solve_decision. Defined.

(** What a logger call was given: a format string with its arguments, or a
    caught error object. *)
Inductive LogPayload : Type :=
| LogText (fmt : string) (args : list JsValue)
| LogErrorObject (e : JsError).

Record LogEntry : Type := mkLog {
  log_level : Level;
  log_payload : LogPayload;
}.

(** ** Async functions: state and exceptions *)

(** The world of a module: the log written so far, oldest entry first, and
    the module's own state. *)
Record World (S : Type) : Type := mkWorld {
  w_log : list LogEntry;
  w_state : S;
}.
Arguments mkWorld {S} _ _.
Arguments w_log {S} _.
Arguments w_state {S} _.

Inductive Completion (A : Type) : Type :=
| Returned (a : A)
| Thrown (e : JsError).
Arguments Returned {A} _.
Arguments Thrown {A} _.

Definition Async (S A : Type) : Type := World S -> Completion A * World S.

Section AsyncOps.
Context {S : Type}.

Definition ret {A} (a : A) : Async S A := fun w => (Returned a, w).

Definition throw {A} (e : JsError) : Async S A := fun w => (Thrown e, w).

Definition bind {A B} (m : Async S A) (k : A -> Async S B) : Async S B :=
  fun w =>
    match m w with
    | (Returned a, w') => k a w'
    | (Thrown e, w') => (Thrown e, w')
    end.

(** [try { m } catch (err) { handler err }] *)
Definition try_catch {A} (m : Async S A) (handler : JsError -> Async S A)
  : Async S A :=
  fun w =>
    match m w with
    | (Returned a, w') => (Returned a, w')
    | (Thrown e, w') => handler e w'
    end.

Definition modify (f : S -> S) : Async S unit :=
  fun w => (Returned tt, mkWorld (w_log w) (f (w_state w))).

Definition write_log (lvl : Level) (p : LogPayload) : Async S unit :=
  fun w => (Returned tt, mkWorld (w_log w ++ [mkLog lvl p]) (w_state w)).

(** [logger.debug(fmt, ...args)] *)
Definition logger_debug (fmt : string) (args : list JsValue) : Async S unit :=
  write_log LvlDebug (LogText fmt args).

(** [logger.error(message)] *)
Definition logger_error (msg : string) : Async S unit :=
  write_log LvlError (LogText msg []).

(** [logger.error(err)] *)
Definition logger_error_object (e : JsError) : Async S unit :=
  write_log LvlError (LogErrorObject e).

End AsyncOps.

Declare Scope async_scope.
Delimit Scope async_scope with async.
Notation "x <- m ;; k" := (bind m (fun x => k))
  (at level 100, m at next level, right associativity) : async_scope.
Notation "m ;;; k" := (bind m (fun _ => k))
  (at level 100, right associativity) : async_scope.
Open Scope async_scope.

Create HintDb async discriminated.
#[export] Hint Unfold bind try_catch ret throw modify write_log
  logger_debug logger_error logger_error_object : async.

(** The entries of a log written at a given severity. *)
Definition logged_at (lvl : Level) (log : list LogEntry) : list LogEntry :=
  filter (fun e => log_level e = lvl) log.

(** ** What the repository imports *)

(** The constants of [src/config]. *)
Class Config : Type := {
  SNS_TOPIC_SUBSCRIPTION_ARN : option string;
  S3_ASSETS_BUCKET : string;
  S3_ENDPOINT_URL : string;
  S3_MAP_TILES_TTL : JsValue;
}.

(** Built-ins and npm helpers: [JSON.parse] (a [SyntaxError] on the left),
    [JSON.stringify] and [url-join]. *)
Class Runtime : Type := {
  JSON_parse : JsValue -> JsError + JsValue;
  JSON_stringify : JsValue -> string;
  urljoin : list string -> string;
}.

(** ** src/middlewares/subscriber.ts *)

Module Subscriber.

(** The part of an axios response the middleware reads. *)
Record AxiosResponse : Type := mkResponse {
  status : Z;
}.

(** [axios.get(url)]: the promise resolves with a response or rejects with
    an error (a failure of the network; under the default
    [validateStatus] of axios, also a response outside the 2xx range). *)
Class HttpClient : Type := {
  axios_get : JsValue -> JsError + AxiosResponse;
}.

(** An Express request: Node stores header names in lower case. *)
Record Request : Type := mkRequest {
  headers : gmap string string;
  body : JsValue;
}.

(** [req.header(name)] *)
Definition req_header (req : Request) (name : string) : option string :=
  headers req !! toLowerCase name.

(** A call of [next]: [next()] or [next(err)]. *)
Inductive NextCall : Type :=
| NextPlain
| NextWithError (e : JsError).

(** What one request-response exchange leaves behind: the GET requests
    issued, the response sent (status and JSON body) if any, [res.locals],
    and the calls of [next], oldest first. *)
Record Exchange : Type := mkExchange {
  http_gets : list JsValue;
  response : option (Z * JsValue);
  locals : gmap string JsValue;
  next_calls : list NextCall;
}.

Definition fresh_exchange : World Exchange :=
  mkWorld [] (mkExchange [] None ∅ []).

(** [new SubscriptionError(message, code)] *)
Definition new_SubscriptionError (message : string) (code : Z) : JsError :=
  mkError SubscriptionError message (JsNum code).

(** [await axios.get(url)] *)
Definition await_axios_get `{HttpClient} (url : JsValue)
  : Async Exchange AxiosResponse :=
  modify (fun x => mkExchange (http_gets x ++ [url]) (response x) (locals x)
                              (next_calls x)) ;;;
  match axios_get url with
  | inr resp => ret resp
  | inl err => throw err
  end.

(** [res.status(code).json(body)] *)
Definition res_status_json (code : Z) (payload : JsValue) : Async Exchange unit :=
  modify (fun x => mkExchange (http_gets x) (Some (code, payload)) (locals x)
                              (next_calls x)).

(** [res.locals[name] = v] *)
Definition set_local (name : string) (v : JsValue) : Async Exchange unit :=
  modify (fun x => mkExchange (http_gets x) (response x)
                              (<[name := v]> (locals x)) (next_calls x)).

Definition call_next (c : NextCall) : Async Exchange unit :=
  modify (fun x => mkExchange (http_gets x) (response x) (locals x)
                              (next_calls x ++ [c])).

(** [JSON.parse(v)] inside an async function. *)
Definition do_JSON_parse `{Runtime} (v : JsValue) : Async Exchange JsValue :=
  match JSON_parse v with
  | inr parsed => ret parsed
  | inl err => throw err
  end.

(** [[...].includes(eventType)] *)
Definition includes (xs : list string) (x : option string) : bool :=
  match x with
  | Some s => bool_decide (s ∈ xs)
  | None => false
  end.

(** Confirm SNS subscription URL. *)
Definition handleSubscriptionResponse `{HttpClient} (subscribeURL : JsValue)
  : Async Exchange unit :=
  try_catch
    (response <- await_axios_get subscribeURL ;;
     let statusCode := status response in
     if statusCode =? 200 then
       logger_debug "Successfully confirmed SNS subscription." []
     else
       throw (new_SubscriptionError
                ("Failed to confirm SNS subscription. Received response "
                   +:+ pretty statusCode +:+ " from: " +:+ to_string subscribeURL)
                500))
    (fun err =>
       logger_error_object err ;;;
       if instanceof err SubscriptionError then throw err else ret tt).

(** The body of the success acknowledgment, [{ code, data: { success: true } }]. *)
Definition SuccessResponse (code : Z) : JsValue :=
  JsObj [("code", JsNum code); ("data", JsObj [("success", JsBool true)])].

(** The async function that [handleSNSMessage] wraps. *)
Definition handleSNSMessage_fn `{Config} `{Runtime} `{HttpClient} (req : Request)
  : Async Exchange unit :=
  let eventType := req_header req "X-Amz-Sns-Message-Type" in
  if negb (includes ["SubscriptionConfirmation"; "Notification"] eventType) then
    throw (new_SubscriptionError
             ("Unhandled SNS event type: " +:+ render eventType) 400)
  else
  let topicArn := req_header req "X-Amz-Sns-Topic-Arn" in
  if negb (bool_decide (topicArn = SNS_TOPIC_SUBSCRIPTION_ARN)) then
    throw (new_SubscriptionError
             ("Unrecognized SNS topic Arn: " +:+ render topicArn) 400)
  else
  let snsMessage := body req in
  if negb (truthy snsMessage) then
    throw (new_SubscriptionError "Could not decode SNS message." 400)
  else
  let messageType := get_prop snsMessage "Type" in
  if strict_eq_str messageType "SubscriptionConfirmation" then
    let subscribeURL := get_prop snsMessage "SubscribeURL" in
    handleSubscriptionResponse subscribeURL ;;;
    let statusCode := 200 in
    let body := SuccessResponse statusCode in
    res_status_json statusCode body
  else if strict_eq_str messageType "Notification" then
    message <- do_JSON_parse (get_prop snsMessage "Message") ;;
    let unsubscribeURL := get_prop snsMessage "UnsubscribeURL" in
    set_local "snsMessage" message ;;;
    call_next NextPlain
  else
    ret tt.

(** [express-async-handler]: run the async function and hand a rejection to
    [next]. *)
Definition asyncHandler (fn : Request -> Async Exchange unit) (req : Request)
  : Async Exchange unit :=
  try_catch (fn req) (fun err => call_next (NextWithError err)).

Definition handleSNSMessage `{Config} `{Runtime} `{HttpClient}
  : Request -> Async Exchange unit :=
  asyncHandler handleSNSMessage_fn.

End Subscriber.

(** ** The S3 service *)

Module S3.

Definition Metadata : Type := list (string * string).

(** The content a [Readable] delivers. *)
Definition Readable : Type := string.

Record PutObjectRequest : Type := mkPut {
  put_Bucket : string;
  put_Key : string;
  put_Body : Readable;
  put_ContentType : string;
  put_ACL : string;
  put_CacheControl : string;
  put_Metadata : option Metadata;
}.

(** [ManagedUpload.SendData] *)
Record SendData : Type := mkSendData {
  sd_Location : string;
  sd_ETag : string;
  sd_Bucket : string;
  sd_Key : string;
}.

Record HeadObjectRequest : Type := mkHead {
  head_Bucket : string;
  head_Key : string;
}.

Record HeadObjectOutput : Type := mkHeadOutput {
  ho_ContentLength : Z;
  ho_ETag : string;
  ho_Metadata : option Metadata;
}.

Record LifecycleRule : Type := mkRule {
  rule_Expiration_Days : Z;
  rule_Filter_Prefix : string;
  rule_Status : string;
}.

Record PutBucketLifecycleConfigurationRequest : Type := mkLifecycle {
  lc_Bucket : string;
  lc_Rules : list LifecycleRule;
}.

Record StorageEvent : Type := mkEvent {
  bucket : string;
  key : string;
  storageUrl : string;
  etag : string;
  metadata : option Metadata;
}.

(** The three operations of the [AWS.S3] client the service calls, each
    followed by [.promise()]: the promise resolves (right) or rejects
    (left), and the backend moves from one state to the next. *)
Class S3Client (B : Type) : Type := {
  s3_upload : PutObjectRequest -> B -> (JsError + SendData) * B;
  s3_headObject : HeadObjectRequest -> B -> (JsError + HeadObjectOutput) * B;
  s3_putBucketLifecycleConfiguration :
    PutBucketLifecycleConfigurationRequest -> B -> (JsError + JsValue) * B;
}.

(** A request sent to the storage backend. *)
Inductive S3Call : Type :=
| CallUpload (req : PutObjectRequest)
| CallHeadObject (req : HeadObjectRequest)
| CallPutBucketLifecycleConfiguration (req : PutBucketLifecycleConfigurationRequest).

(** The requests sent so far, oldest first, and the backend. *)
Record S3State (B : Type) : Type := mkS3State {
  calls : list S3Call;
  backend : B;
}.
Arguments mkS3State {B} _ _.
Arguments calls {B} _.
Arguments backend {B} _.

Section Service.
Context `{Config} `{Runtime} {B : Type} `{S3Client B}.

(** [await op(req).promise()] *)
Definition await_s3 {Req Res : Type} (tag : Req -> S3Call)
    (op : Req -> B -> (JsError + Res) * B) (req : Req)
  : Async (S3State B) Res :=
  fun w =>
    let st := w_state w in
    let (outcome, b') := op req (backend st) in
    let w' := mkWorld (w_log w) (mkS3State (calls st ++ [tag req]) b') in
    match outcome with
    | inr res => (Returned res, w')
    | inl err => (Thrown err, w')
    end.

Definition new_S3Error (message : string) : JsError :=
  mkError S3Error message JsUndefined.

Definition new_UploadError (message : string) : JsError :=
  mkError UploadError message JsUndefined.

(** Helper function. *)
Definition getStorageUrl (bucket key : string) : string :=
  urljoin [S3_ENDPOINT_URL; bucket; key].

(** Uploads an arbitrarily sized buffer, blob, or stream. *)
Definition s3StreamUpload (readable : Readable) (keyPath contentType : string)
    (metadata : option Metadata) (bucketName : option string)
  : Async (S3State B) StorageEvent :=
  let bucketName := default S3_ASSETS_BUCKET bucketName in
  try_catch
    (let config :=
       mkPut bucketName keyPath readable contentType "public-read"
             ("max-age=" +:+ to_string S3_MAP_TILES_TTL) None in
     let config :=
       match metadata with
       | Some m =>
           mkPut (put_Bucket config) (put_Key config) (put_Body config)
                 (put_ContentType config) (put_ACL config)
                 (put_CacheControl config) (Some m)
       | None => config
       end in
     meta <- await_s3 CallUpload s3_upload config ;;
     logger_debug ("[s3StreamUpload] successfully uploaded: " +:+ sd_Location meta) [] ;;;
     ret (mkEvent (sd_Bucket meta) (sd_Key meta)
                  (getStorageUrl (sd_Bucket meta) (sd_Key meta))
                  (sd_ETag meta) None))
    (fun err =>
       logger_error (err_message err) ;;;
       throw (new_UploadError ("Failed to upload file to S3. " +:+ err_message err))).

(** Return the metadata of an object if it exist. *)
Definition s3KeyExists (keyPath : string) (bucketName : option string)
  : Async (S3State B) (option StorageEvent) :=
  let bucketName := default S3_ASSETS_BUCKET bucketName in
  let config := mkHead bucketName keyPath in
  try_catch
    (meta <- await_s3 CallHeadObject s3_headObject config ;;
     logger_debug ("[s3KeyExists] found S3 key " +:+ pretty (ho_ContentLength meta)
                     +:+ " bytes: " +:+ keyPath) [] ;;;
     ret (Some (mkEvent (head_Bucket config) (head_Key config)
                        (getStorageUrl (head_Bucket config) (head_Key config))
                        (ho_ETag meta) (ho_Metadata meta))))
    (fun err =>
       logger_error (err_message err) ;;;
       if negb (strict_eq_str (err_code err) "NotFound") then
         throw (new_UploadError
                  ("Failed to request file meta from S3. " +:+ err_message err))
       else ret None).

(** The casts [<string>v] and [<string[]>v]: no run-time effect; they are
    applied after [isString] and [isArray] have answered. *)
Definition as_string (v : JsValue) : string :=
  match v with JsStr s => s | _ => EmptyString end.

Definition as_array (v : JsValue) : list JsValue :=
  match v with JsArr items => items | _ => [] end.

(** Creates a new lifecycle configuration for the bucket or replaces an
    existing lifecycle configuration. *)
Definition createLifecyclePolicy (objectKeyPrefix : JsValue)
    (bucketName : option string) (expDaysTTL : option Z)
  : Async (S3State B) bool :=
  let bucketName := default S3_ASSETS_BUCKET bucketName in
  let expDaysTTL := default 1 expDaysTTL in
  keyPrefixes <-
    (if isString objectKeyPrefix then
       ret [as_string objectKeyPrefix]
     else if (isArray objectKeyPrefix
              && forallb isString (as_array objectKeyPrefix))%bool then
       ret (map as_string (as_array objectKeyPrefix))
     else
       throw (new_S3Error "Unsupported object key prefix format.")) ;;
  logger_debug "[createLifecyclePolicy] object key prefix: %O"
               [JsArr (map JsStr keyPrefixes)] ;;;
  let params :=
    mkLifecycle bucketName
      (map (fun prefix => mkRule expDaysTTL prefix "Enabled") keyPrefixes) in
  success <-
    try_catch
      (res <- await_s3 CallPutBucketLifecycleConfiguration
                       s3_putBucketLifecycleConfiguration params ;;
       logger_debug "[createLifecyclePolicy] client responded with: %s"
                    [JsStr (JSON_stringify res)] ;;;
       ret true)
      (fun err =>
         let success := false in
         logger_error (err_message err) ;;;
         ret success) ;;
  ret success.

End Service.

(** What the round trip asks of the backend: a successful upload reports
    the bucket and key it was given, and a [headObject] that follows it
    for the same bucket and key finds the object under the entity tag the
    upload reported. *)
Class S3RoundTrip (B : Type) `{S3Client B} : Prop := {
  upload_echo : forall req b sd b',
    s3_upload req b = (inr sd, b') ->
    sd_Bucket sd = put_Bucket req /\ sd_Key sd = put_Key req;
  head_after_upload : forall req b sd b',
    s3_upload req b = (inr sd, b') ->
    exists ho b'',
      s3_headObject (mkHead (put_Bucket req) (put_Key req)) b' = (inr ho, b'')
      /\ ho_ETag ho = sd_ETag sd;
}.

End S3.

(** ** The Mongoose model helper *)

Module Mongo.

(** A stored document under the projection [select('organization')]: its
    [_id] and its [organization] attribute ([JsUndefined] when the
    attribute is absent). *)
Record Doc : Type := mkDoc {
  doc_id : string;
  organization : JsValue;
}.

(** A model, as the collection of its documents. *)
Definition Model : Type := list Doc.

(** The queries sent to the store, oldest first: each is the list of ids
    under [$in]. *)
Record DbState : Type := mkDbState {
  queries : list (list string);
}.

Definition fresh_db : World DbState := mkWorld [] (mkDbState []).

(** [await model.find({ _id: { $in: refIds } }).select('organization')]:
    the documents of the collection whose [_id] is one of [refIds]. *)
Definition find_in_select_organization (model : Model) (refIds : list string)
  : Async DbState (list Doc) :=
  modify (fun s => mkDbState (queries s ++ [refIds])) ;;;
  ret (filter (fun d => doc_id d ∈ refIds) model).

Definition new_Error (message : string) : JsError :=
  mkError PlainError message JsUndefined.

(** [new DocumentError(message, code)] *)
Definition new_DocumentError (message : string) (code : Z) : JsError :=
  mkError DocumentError message (JsNum code).

(** Validate document references.
    References need to belong to the same workspace/organization.
    [refIds] is [None] for a caller that passes [undefined]. *)
Definition checkWorkspaceRefs (model : Model) (refIds : option (list string))
    (organization : string) : Async DbState unit :=
  if negb (truthy (JsStr organization)) then
    throw (new_Error "Missing required parameter: organization")
  else
  match refIds with
  | None => ret tt
  | Some refIds =>
      if negb (length refIds =? 0)%nat then
        logger_debug
          "[checkWorkspaceRefs] checking references for organization %s: %s"
          [JsStr organization; JsArr (map JsStr refIds)] ;;;
        res <- find_in_select_organization model refIds ;;
        let isValid :=
          forallb (fun r => strict_eq_str (Mongo.organization r) organization) res in
        if negb isValid then
          throw (new_DocumentError
                   "Could not save document. Invalid references saved on document."
                   400)
        else ret tt
      else ret tt
  end.

End Mongo.

(** ** The default schema options *)

Module Schema.

(** The transform of [schemaOptions.toObject] on the plain object [ret]:
    [ret.id = ret._id; delete ret._id; delete ret.__v].  The document
    [doc] is not read. *)
Definition toObject_transform (doc : JsValue) (ret : gmap string JsValue)
  : gmap string JsValue :=
  let ret := <["id" := default JsUndefined (ret !! "_id")]> ret in
  let ret := delete "_id" ret in
  delete "__v" ret.

(** The transform of [schemaOptions.toJSON], written out a second time in
    the source. *)
Definition toJSON_transform (doc : JsValue) (ret : gmap string JsValue)
  : gmap string JsValue :=
  let ret := <["id" := default JsUndefined (ret !! "_id")]> ret in
  let ret := delete "_id" ret in
  delete "__v" ret.

End Schema.

(** ** The organizations router: the page of groups *)

Module Organizations.

(** What [parseInt] returns for a query parameter: [NaN] or an integer.
    The integers are the mathematical ones.  JavaScript's are exact up to
    2^53; beyond, and for the infinities that [parseInt] gives on digit
    strings of hundreds of digits, the offset lies past the end of any
    array or the size is cut to its bound, so the page is the one computed
    here for a large [Num]. *)
Inductive JsNumber : Type :=
| NaN
| Num (n : Z).

(** [Math.max] and [Math.min]: [NaN] as soon as an argument is [NaN]. *)
Definition Math_max (a b : JsNumber) : JsNumber :=
  match a, b with
  | Num x, Num y => Num (Z.max x y)
  | _, _ => NaN
  end.

Definition Math_min (a b : JsNumber) : JsNumber :=
  match a, b with
  | Num x, Num y => Num (Z.min x y)
  | _, _ => NaN
  end.

Definition num_add (a b : JsNumber) : JsNumber :=
  match a, b with
  | Num x, Num y => Num (x + y)
  | _, _ => NaN
  end.

Definition num_sub (a b : JsNumber) : JsNumber :=
  match a, b with
  | Num x, Num y => Num (x - y)
  | _, _ => NaN
  end.

Definition num_mul (a b : JsNumber) : JsNumber :=
  match a, b with
  | Num x, Num y => Num (x * y)
  | _, _ => NaN
  end.

(** The index [Array.prototype.slice] makes of an argument, for an array
    of length [len]: [NaN] counts as 0, a negative index counts from the
    end, and the result is kept within [0..len]. *)
Definition slice_index (len : Z) (i : JsNumber) : Z :=
  match i with
  | NaN => 0
  | Num n => if n <? 0 then Z.max (len + n) 0 else Z.min n len
  end.

(** [xs.slice(start, end)] *)
Definition slice {A : Type} (xs : list A) (start end_ : JsNumber) : list A :=
  let len := Z.of_nat (length xs) in
  let k := slice_index len start in
  let final := slice_index len end_ in
  take (Z.to_nat (Z.max (final - k) 0)) (drop (Z.to_nat k) xs).

Record PageOptions : Type := mkPageOptions {
  page : JsNumber;
  size : JsNumber;
}.

(** [pageOptions]: [pageNumber] and [pageSize] stand for
    [parseInt(pageNumber)] and [parseInt(pageSize)]. *)
Definition pageOptions (pageNumber pageSize : JsNumber) : PageOptions :=
  mkPageOptions (Math_max pageNumber (Num 1))
                (Math_min (Math_max pageSize (Num 0)) (Num 25)).

(** ['nested' in group], on the own properties of a group. *)
Definition has_property (k : string) (fields : list (string * JsValue)) : bool :=
  existsb (fun kv => bool_decide (fst kv = k)) fields.

(** [groups]: of the groups the authorization service returned, those
    with a [nested] property, each reduced to
    [{ name, description, id: _id }]. *)
Definition groups (all : list (list (string * JsValue))) : list JsValue :=
  map (fun group =>
         JsObj [("name", assoc "name" group);
                ("description", assoc "description" group);
                ("id", assoc "_id" group)])
      (filter (fun group => has_property "nested" group = true) all).

Definition paginationOffset (options : PageOptions) : JsNumber :=
  num_mul (num_sub (page options) (Num 1)) (size options).

Definition paginatedGroups (all : list (list (string * JsValue)))
    (pageNumber pageSize : JsNumber) : list JsValue :=
  let options := pageOptions pageNumber pageSize in
  let offset := paginationOffset options in
  slice (groups all) offset (num_add offset (size options)).

End Organizations.

(** ** A closed environment for the examples *)

Module Sample.
Import Subscriber S3 Mongo.

Definition dquote : string := String "034"%char EmptyString.

(** The text [{"tenant":"t1"}]. *)
Definition tenant_json : string :=
  "{" +:+ dquote +:+ "tenant" +:+ dquote +:+ ":" +:+ dquote +:+ "t1" +:+ dquote +:+ "}".

Definition trusted_arn : string :=
  "arn:aws:sns:us-east-1:123456789012:marapp-services-dev-sns-result".

#[export] Instance config : Config := {|
  SNS_TOPIC_SUBSCRIPTION_ARN := Some trusted_arn;
  S3_ASSETS_BUCKET := "marapp-services-assets-dev";
  S3_ENDPOINT_URL := "http://localhost:4572";
  S3_MAP_TILES_TTL := JsNum 31536000;
|}.

Definition syntax_error : JsError :=
  mkError (ForeignError "SyntaxError") "Unexpected token in JSON" JsUndefined.

(** A runtime for the examples.  Its [JSON_parse] reads the one text the
    examples parse and raises a [SyntaxError] elsewhere, as [JSON.parse]
    does on [undefined]; its [JSON_stringify] writes the empty object; its
    [urljoin] joins with a slash parts that carry none at their ends. *)
#[export] Instance runtime : Runtime := {|
  JSON_parse v :=
    if strict_eq_str v tenant_json then inr (JsObj [("tenant", JsStr "t1")])
    else inl syntax_error;
  JSON_stringify v :=
    match v with
    | JsObj [] => "{}"
    | _ => to_string v
    end;
  urljoin parts := join_with "/" parts;
|}.

(** Three confirmation endpoints: one answers 200, one answers 204, one
    cannot be reached. *)
Definition http_ok : HttpClient := {| axios_get _ := inr (mkResponse 200) |}.

Definition http_no_content : HttpClient := {| axios_get _ := inr (mkResponse 204) |}.

Definition connection_refused : JsError :=
  mkError (ForeignError "Error") "connect ECONNREFUSED 127.0.0.1:443"
          (JsStr "ECONNREFUSED").

Definition http_unreachable : HttpClient := {| axios_get _ := inl connection_refused |}.

Definition sns_headers (messageType topicArn : string) : gmap string string :=
  <["x-amz-sns-message-type" := messageType]>
    (<["x-amz-sns-topic-arn" := topicArn]> ∅).

(** A handshake envelope from the trusted topic. *)
Definition handshake_request : Request :=
  mkRequest (sns_headers "SubscriptionConfirmation" trusted_arn)
    (JsObj [("Type", JsStr "SubscriptionConfirmation");
            ("SubscribeURL", JsStr "https://sns.us-east-1.amazonaws.com/confirm")]).

(** The notification envelope of the forwarding scenario. *)
Definition notification_request : Request :=
  mkRequest (sns_headers "Notification" trusted_arn)
    (JsObj [("Type", JsStr "Notification");
            ("Message", JsStr tenant_json);
            ("UnsubscribeURL", JsStr "https://x")]).

(** A notification envelope that carries no [Message]. *)
Definition notification_without_message : Request :=
  mkRequest (sns_headers "Notification" trusted_arn)
    (JsObj [("Type", JsStr "Notification");
            ("UnsubscribeURL", JsStr "https://x")]).

(** An envelope of a type the middleware does not handle, from a topic it
    does not trust. *)
Definition foreign_request : Request :=
  mkRequest (sns_headers "UnsubscribeConfirmation" "arn:aws:sns:us-east-1:000000000000:other")
    (JsObj [("Type", JsStr "UnsubscribeConfirmation")]).

(** A notification envelope from a topic the middleware does not trust. *)
Definition untrusted_notification : Request :=
  mkRequest (sns_headers "Notification" "arn:aws:sns:us-east-1:000000000000:other")
    (JsObj [("Type", JsStr "Notification"); ("Message", JsStr tenant_json)]).

(** A trusted envelope whose body has a [Type] the middleware does not
    dispatch on. *)
Definition odd_body_request : Request :=
  mkRequest (sns_headers "Notification" trusted_arn)
    (JsObj [("Type", JsStr "UnsubscribeConfirmation")]).

(** The worlds the middleware leaves, from a fresh exchange: after the
    handshake with an unreachable endpoint, after the foreign envelope,
    after the notification without a message, and after the notification
    of the scenario. *)
Definition unreachable_outcome : World Exchange :=
  snd (@handleSNSMessage config runtime http_unreachable handshake_request
         fresh_exchange).

Definition foreign_outcome : World Exchange :=
  snd (@handleSNSMessage config runtime http_ok foreign_request fresh_exchange).

Definition no_message_outcome : World Exchange :=
  snd (@handleSNSMessage config runtime http_ok notification_without_message
         fresh_exchange).

Definition scenario_outcome : World Exchange :=
  snd (@handleSNSMessage config runtime http_ok notification_request
         fresh_exchange).

(** An in-memory storage backend: buckets, objects by bucket and key, and
    one lifecycle configuration per bucket. *)
Record S3Object : Type := mkObject {
  obj_body : string;
  obj_metadata : option Metadata;
  obj_etag : string;
}.

Record MemS3 : Type := mkMem {
  buckets : list string;
  objects : gmap (string * string) S3Object;
  policies : gmap string (list LifecycleRule);
}.

(** Stands for the checksum the backend computes. *)
Definition digest (content : string) : string :=
  "etag-" +:+ pretty (Z.of_nat (String.length content)) +:+ "-" +:+ content.

Definition NoSuchBucket : JsError :=
  mkError (ForeignError "NoSuchBucket") "The specified bucket does not exist"
          (JsStr "NoSuchBucket").

Definition NotFound : JsError :=
  mkError (ForeignError "NotFound") "null" (JsStr "NotFound").

Definition mem_upload (req : PutObjectRequest) (b : MemS3)
  : (JsError + SendData) * MemS3 :=
  if bool_decide (put_Bucket req ∈ buckets b) then
    let o := mkObject (put_Body req) (put_Metadata req) (digest (put_Body req)) in
    (inr (mkSendData (put_Bucket req +:+ "/" +:+ put_Key req) (obj_etag o)
                     (put_Bucket req) (put_Key req)),
     mkMem (buckets b) (<[(put_Bucket req, put_Key req) := o]> (objects b))
           (policies b))
  else (inl NoSuchBucket, b).

Definition mem_headObject (req : HeadObjectRequest) (b : MemS3)
  : (JsError + HeadObjectOutput) * MemS3 :=
  match objects b !! (head_Bucket req, head_Key req) with
  | Some o =>
      (inr (mkHeadOutput (Z.of_nat (String.length (obj_body o))) (obj_etag o)
                         (obj_metadata o)), b)
  | None => (inl NotFound, b)
  end.

Definition mem_putBucketLifecycleConfiguration
    (req : PutBucketLifecycleConfigurationRequest) (b : MemS3)
  : (JsError + JsValue) * MemS3 :=
  if bool_decide (lc_Bucket req ∈ buckets b) then
    (inr (JsObj []),
     mkMem (buckets b) (objects b) (<[lc_Bucket req := lc_Rules req]> (policies b)))
  else (inl NoSuchBucket, b).

#[export] Instance mem_client : S3Client MemS3 := {|
  s3_upload := mem_upload;
  s3_headObject := mem_headObject;
  s3_putBucketLifecycleConfiguration := mem_putBucketLifecycleConfiguration;
|}.

(** A backend that holds the asset bucket, still empty. *)
Definition empty_assets : World (S3State MemS3) :=
  mkWorld [] (mkS3State [] (mkMem ["marapp-services-assets-dev"] ∅ ∅)).

(** A backend without any bucket. *)
Definition no_bucket : World (S3State MemS3) :=
  mkWorld [] (mkS3State [] (mkMem [] ∅ ∅)).

(** A collection of two workspaces, and a document without the attribute. *)
Definition layers : Model :=
  [mkDoc "5f0000000000000000000001" (JsStr "org-a");
   mkDoc "5f0000000000000000000002" (JsStr "org-a");
   mkDoc "5f0000000000000000000003" (JsStr "org-b");
   mkDoc "5f0000000000000000000004" JsUndefined].

End Sample.

(** ** The vocabulary of the properties *)

Module SubscriberSpec.
Import Subscriber.

Section Vocabulary.
Context `{Config}.

(** Step 1: the message-type header is one the middleware handles. *)
Definition accepted_type (req : Request) : Prop :=
  req_header req "X-Amz-Sns-Message-Type" = Some "SubscriptionConfirmation"
  \/ req_header req "X-Amz-Sns-Message-Type" = Some "Notification".

(** Step 2: the topic header names the configured topic. *)
Definition trusted_topic (req : Request) : Prop :=
  req_header req "X-Amz-Sns-Topic-Arn" = SNS_TOPIC_SUBSCRIPTION_ARN.

(** Step 3: there is a body. *)
Definition has_body (req : Request) : Prop := truthy (body req) = true.

Definition passes_checks (req : Request) : Prop :=
  accepted_type req /\ trusted_topic req /\ has_body req.

End Vocabulary.

(** The [Type] field of the body. *)
Definition body_Type (req : Request) : JsValue := get_prop (body req) "Type".

(** The four errors of the middleware, under the names the specification
    gives them. *)
Definition UnsupportedMessageType (eventType : option string) : JsError :=
  mkError SubscriptionError ("Unhandled SNS event type: " +:+ render eventType)
          (JsNum 400).

Definition UntrustedTopic (topicArn : option string) : JsError :=
  mkError SubscriptionError ("Unrecognized SNS topic Arn: " +:+ render topicArn)
          (JsNum 400).

Definition MalformedEnvelope : JsError :=
  mkError SubscriptionError "Could not decode SNS message." (JsNum 400).

Definition HandshakeConfirmationFailed (statusCode : Z) (subscribeURL : JsValue)
  : JsError :=
  mkError SubscriptionError
    ("Failed to confirm SNS subscription. Received response "
       +:+ pretty statusCode +:+ " from: " +:+ to_string subscribeURL)
    (JsNum 500).

(** From [w] to [w'] the handler raised [e]: the error went to [next], and
    neither a response nor [res.locals] was touched. *)
Definition raised (e : JsError) (w w' : World Exchange) : Prop :=
  next_calls (w_state w') = (next_calls (w_state w) ++ [NextWithError e])%list
  /\ response (w_state w') = response (w_state w)
  /\ locals (w_state w') = locals (w_state w).

(** From [w] to [w'] the handler answered with the success acknowledgment
    and called [next] in no way. *)
Definition acknowledged (w w' : World Exchange) : Prop :=
  response (w_state w') = Some (200, SuccessResponse 200)
  /\ next_calls (w_state w') = next_calls (w_state w).

(** From [w] to [w'] the handler attached [payload] as
    [res.locals.snsMessage] and passed control on with [next()], sending
    no response. *)
Definition forwarded (payload : JsValue) (w w' : World Exchange) : Prop :=
  locals (w_state w') = <["snsMessage" := payload]> (locals (w_state w))
  /\ next_calls (w_state w') = (next_calls (w_state w) ++ [NextPlain])%list
  /\ response (w_state w') = response (w_state w).

(** The world after the confirmation request for [url] and the log entry
    that follows it. *)
Definition after_get (url : JsValue) (w : World Exchange) (entry : LogEntry)
  : World Exchange :=
  mkWorld (w_log w ++ [entry])
          (mkExchange (http_gets (w_state w) ++ [url]) (response (w_state w))
                      (locals (w_state w)) (next_calls (w_state w))).

End SubscriberSpec.

Module S3Spec.
Import S3.

(** A prefix argument of the declared type [string | string[]]. *)
Definition well_shaped (objectKeyPrefix : JsValue) : Prop :=
  (exists s, objectKeyPrefix = JsStr s)
  \/ (exists ss, objectKeyPrefix = JsArr (map JsStr ss)).

(** The prefixes such an argument names. *)
Definition prefixes_of (objectKeyPrefix : JsValue) : list string :=
  match objectKeyPrefix with
  | JsStr s => [s]
  | JsArr items => map as_string items
  | _ => []
  end.

(** One enabled expiration rule per prefix. *)
Definition expiration_rules (days : Z) (prefixes : list string)
  : list LifecycleRule :=
  map (fun p => mkRule days p "Enabled") prefixes.

(** The request [createLifecyclePolicy] is to send for a well-shaped
    argument: the bucket, and a rule per prefix with the given lifetime. *)
Definition lifecycle_request `{Config} (objectKeyPrefix : JsValue)
    (bucketName : option string) (expDaysTTL : option Z)
  : PutBucketLifecycleConfigurationRequest :=
  mkLifecycle (default S3_ASSETS_BUCKET bucketName)
              (expiration_rules (default 1 expDaysTTL) (prefixes_of objectKeyPrefix)).

(** The request [s3StreamUpload] is to send: public-read, cached for the
    configured lifetime, with the caller's metadata when there is one. *)
Definition upload_request `{Config} (readable : Readable)
    (keyPath contentType : string) (metadata : option Metadata)
    (bucketName : option string) : PutObjectRequest :=
  mkPut (default S3_ASSETS_BUCKET bucketName) keyPath readable contentType
        "public-read" ("max-age=" +:+ to_string S3_MAP_TILES_TTL) metadata.

End S3Spec.

Module MongoSpec.
Import Mongo.

(** Every stored document that [refIds] references belongs to
    [organization]. *)
Definition same_workspace (model : Model) (refIds : list string)
    (organization : string) : Prop :=
  forall d, d ∈ model -> doc_id d ∈ refIds ->
            Mongo.organization d = JsStr organization.

(** The error of a failed check, under the name the specification gives
    it. *)
Definition CrossTenantReference : JsError :=
  mkError DocumentError
    "Could not save document. Invalid references saved on document." (JsNum 400).

End MongoSpec.

Module MoreSpec.

(** The bodies the presence check of the middleware refuses. *)
Definition falsy_body (v : JsValue) : Prop :=
  v = JsUndefined \/ v = JsNull \/ v = JsBool false \/ v = JsNum 0
  \/ v = JsStr EmptyString.

End MoreSpec.

Module MoreSample.
Import Subscriber S3 Mongo Organizations Sample.

(** A trusted notification call that no body parser has read. *)
Definition bodyless_request : Request :=
  mkRequest (sns_headers "Notification" trusted_arn) JsUndefined.

(** The notification of the scenario under the header of a handshake. *)
Definition mismatched_request : Request :=
  mkRequest (sns_headers "SubscriptionConfirmation" trusted_arn)
    (body notification_request).

(** The asset bucket after one upload with metadata. *)
Definition stocked_assets : World (S3State MemS3) :=
  snd (s3StreamUpload "PNGDATA" "tiles/1.png" "image/png"
         (Some [("tenant", "t1")]) None empty_assets).

(** A stored document as the transform receives it. *)
Definition stored_layer : gmap string JsValue :=
  <["_id" := JsStr "5f0000000000000000000001"]>
    (<["__v" := JsNum 0]> (<["name" := JsStr "Forests"]> ∅)).

(** Three groups of the authorization service; the second has no
    [nested] property. *)
Definition authz_groups : list (list (string * JsValue)) :=
  [[("_id", JsStr "g1"); ("name", JsStr "ORG-A"); ("description", JsStr "A");
    ("nested", JsArr []); ("members", JsArr [JsStr "auth0|1"])];
   [("_id", JsStr "g2"); ("name", JsStr "ORG-A-ADMIN"); ("description", JsStr "admin")];
   [("_id", JsStr "g3"); ("name", JsStr "ORG-B"); ("nested", JsArr [])]].

End MoreSample.

(** ** Facts about JavaScript values *)

Lemma strict_eq_str_true (v : JsValue) (s : string) :
  strict_eq_str v s = true <-> v = JsStr s.
Proof.
  destruct v; cbn; try (split; [discriminate | intros [=]]).
  rewrite bool_decide_eq_true. split; [intros -> | intros [= ->]]; reflexivity.
Qed.

Lemma strict_eq_str_false (v : JsValue) (s : string) :
  v <> JsStr s -> strict_eq_str v s = false.
Proof.
  intros Hne. apply not_true_is_false. intros Heq.
  apply Hne, strict_eq_str_true, Heq.
Qed.

(** ** Properties of the subscription middleware *)

Module SubscriberProofs.
Import Subscriber SubscriberSpec.

Section Middleware.
Context `{Config} `{Runtime} `{HttpClient}.

Lemma includes_accepted (req : Request) :
  includes ["SubscriptionConfirmation"; "Notification"]
           (req_header req "X-Amz-Sns-Message-Type") = true
  <-> accepted_type req.
Proof.
  unfold accepted_type, includes.
  destruct (req_header req "X-Amz-Sns-Message-Type") as [s|].
  - rewrite bool_decide_eq_true. rewrite !elem_of_cons, elem_of_nil.
    split.
    + intros [-> | [-> | []]]; auto.
    + intros [[= ->] | [= ->]]; auto.
  - split; [discriminate | intros [? | ?]; discriminate].
Qed.

Lemma includes_rejected (req : Request) :
  ~ accepted_type req ->
  includes ["SubscriptionConfirmation"; "Notification"]
           (req_header req "X-Amz-Sns-Message-Type") = false.
Proof.
  intros Hno. apply not_true_is_false. intros Hin.
  apply Hno, includes_accepted, Hin.
Qed.

(** Step 1 fails. *)
Lemma fn_unsupported_type (req : Request) (w : World Exchange) :
  ~ accepted_type req ->
  handleSNSMessage_fn req w
  = (Thrown (UnsupportedMessageType (req_header req "X-Amz-Sns-Message-Type")), w).
Proof.
  intros Hno. unfold handleSNSMessage_fn.
  rewrite (includes_rejected req Hno). reflexivity.
Qed.

(** Step 1 passes, step 2 fails. *)
Lemma fn_untrusted_topic (req : Request) (w : World Exchange) :
  accepted_type req -> ~ trusted_topic req ->
  handleSNSMessage_fn req w
  = (Thrown (UntrustedTopic (req_header req "X-Amz-Sns-Topic-Arn")), w).
Proof.
  intros Hty Hno. unfold handleSNSMessage_fn.
  apply includes_accepted in Hty. rewrite Hty. cbn [negb].
  rewrite bool_decide_eq_false_2 by exact Hno. reflexivity.
Qed.

(** All three steps pass: the body's [Type] decides. *)
Lemma fn_dispatch (req : Request) :
  passes_checks req ->
  handleSNSMessage_fn req
  = if strict_eq_str (body_Type req) "SubscriptionConfirmation" then
      handleSubscriptionResponse (get_prop (body req) "SubscribeURL") ;;;
      res_status_json 200 (SuccessResponse 200)
    else if strict_eq_str (body_Type req) "Notification" then
      message <- do_JSON_parse (get_prop (body req) "Message") ;;
      set_local "snsMessage" message ;;;
      call_next NextPlain
    else ret tt.
Proof.
  intros (Hty & Htopic & Hbody). unfold handleSNSMessage_fn.
  apply includes_accepted in Hty. rewrite Hty. cbn [negb].
  rewrite bool_decide_eq_true_2 by exact Htopic. cbn [negb].
  unfold has_body in Hbody. rewrite Hbody. reflexivity.
Qed.

Lemma confirm_ok (url : JsValue) (w : World Exchange) (resp : AxiosResponse) :
  axios_get url = inr resp -> status resp = 200 ->
  handleSubscriptionResponse url w
  = (Returned tt,
     after_get url w
       (mkLog LvlDebug (LogText "Successfully confirmed SNS subscription." []))).
Proof.
  intros Hget Hst.
  unfold handleSubscriptionResponse, await_axios_get. autounfold with async.
  rewrite Hget. cbn. rewrite Hst. reflexivity.
Qed.

Lemma confirm_other_status (url : JsValue) (w : World Exchange)
    (resp : AxiosResponse) :
  axios_get url = inr resp -> status resp <> 200 ->
  let e := HandshakeConfirmationFailed (status resp) url in
  handleSubscriptionResponse url w
  = (Thrown e, after_get url w (mkLog LvlError (LogErrorObject e))).
Proof.
  intros Hget Hst e.
  unfold handleSubscriptionResponse, await_axios_get. autounfold with async.
  rewrite Hget. cbn.
  destruct (Z.eqb_spec (status resp) 200) as [Heq | _]; [contradiction |].
  reflexivity.
Qed.

Lemma confirm_rejected (url : JsValue) (w : World Exchange) (err : JsError) :
  axios_get url = inl err ->
  handleSubscriptionResponse url w
  = (if instanceof err SubscriptionError then Thrown err else Returned tt,
     after_get url w (mkLog LvlError (LogErrorObject err))).
Proof.
  intros Hget.
  unfold handleSubscriptionResponse, await_axios_get. autounfold with async.
  rewrite Hget. cbn.
  destruct (instanceof err SubscriptionError); reflexivity.
Qed.

(** The handshake path, whatever the confirmation call does. *)
Lemma handshake_path (req : Request) (w : World Exchange) :
  passes_checks req ->
  body_Type req = JsStr "SubscriptionConfirmation" ->
  handleSNSMessage req w
  = asyncHandler
      (fun r =>
         handleSubscriptionResponse (get_prop (body r) "SubscribeURL") ;;;
         res_status_json 200 (SuccessResponse 200)) req w.
Proof.
  intros Hpass Hty. unfold handleSNSMessage, asyncHandler, try_catch.
  rewrite (fn_dispatch req Hpass), Hty. reflexivity.
Qed.

(** C1 (amended).  On the handshake path the confirmation URL is requested
    once.  When the request resolves with a status other than 200, the
    handler raises the 500 [SubscriptionError], which is logged; it sends
    no response and does not call [next()].  When the request is rejected
    with an error that is not a [SubscriptionError] (a network failure),
    the error is logged and swallowed, and the handler answers with the
    success acknowledgment. *)
Theorem handshake_confirmation_outcome (req : Request) (w : World Exchange) :
  passes_checks req ->
  body_Type req = JsStr "SubscriptionConfirmation" ->
  let url := get_prop (body req) "SubscribeURL" in
  let w' := snd (handleSNSMessage req w) in
  http_gets (w_state w') = (http_gets (w_state w) ++ [url])%list
  /\ (forall resp,
        axios_get url = inr resp -> status resp <> 200 ->
        let e := HandshakeConfirmationFailed (status resp) url in
        raised e w w'
        /\ w_log w' = (w_log w ++ [mkLog LvlError (LogErrorObject e)])%list)
  /\ (forall err,
        axios_get url = inl err -> err_class err <> SubscriptionError ->
        acknowledged w w'
        /\ w_log w' = (w_log w ++ [mkLog LvlError (LogErrorObject err)])%list).
Proof.
  intros Hpass Hty url w'. subst w'.
  rewrite (handshake_path req w Hpass Hty).
  unfold asyncHandler, try_catch, bind. fold url.
  destruct (axios_get url) as [err | resp] eqn:Hget.
  - rewrite (confirm_rejected url w err Hget).
    unfold instanceof.
    destruct (decide (err_class err = SubscriptionError)) as [Hsub | Hsub].
    + rewrite bool_decide_eq_true_2 by exact Hsub. cbn.
      split; [reflexivity |]. split; [discriminate |].
      intros err' [= <-] Hno. contradiction.
    + rewrite bool_decide_eq_false_2 by exact Hsub. cbn.
      split; [reflexivity |]. split; [discriminate |].
      intros err' [= <-] _. unfold acknowledged. cbn. auto.
  - destruct (decide (status resp = 200)) as [Hst | Hst].
    + rewrite (confirm_ok url w resp Hget Hst). cbn.
      split; [reflexivity |]. split; [| discriminate].
      intros resp' [= <-] Hno. contradiction.
    + rewrite (confirm_other_status url w resp Hget Hst). cbn.
      split; [reflexivity |]. split; [| discriminate].
      intros resp' [= <-] _. unfold raised. cbn. auto.
Qed.

(** The handshake that succeeds: a confirmation answered with 200 gets the
    success acknowledgment. *)
Lemma handshake_confirmed (req : Request) (w : World Exchange)
    (resp : AxiosResponse) :
  passes_checks req ->
  body_Type req = JsStr "SubscriptionConfirmation" ->
  axios_get (get_prop (body req) "SubscribeURL") = inr resp ->
  status resp = 200 ->
  acknowledged w (snd (handleSNSMessage req w)).
Proof.
  intros Hpass Hty Hget Hst.
  rewrite (handshake_path req w Hpass Hty).
  unfold asyncHandler, try_catch, bind.
  rewrite (confirm_ok _ w resp Hget Hst). cbn.
  unfold acknowledged. cbn. auto.
Qed.

(** C4 (amended).  An envelope whose topic header differs from the
    configured topic is rejected with a [SubscriptionError] of code 400,
    whatever its body, before any request is issued: the error is the one
    of the topic check when the message-type header is accepted, and the
    one of the type check, which runs first, when it is not. *)
Theorem untrusted_topic_rejected (req : Request) (w : World Exchange) :
  ~ trusted_topic req ->
  let w' := snd (handleSNSMessage req w) in
  exists e,
    raised e w w'
    /\ err_class e = SubscriptionError
    /\ err_code e = JsNum 400
    /\ http_gets (w_state w') = http_gets (w_state w)
    /\ (accepted_type req ->
        e = UntrustedTopic (req_header req "X-Amz-Sns-Topic-Arn"))
    /\ (~ accepted_type req ->
        e = UnsupportedMessageType (req_header req "X-Amz-Sns-Message-Type")).
Proof.
  intros Htopic w'. subst w'.
  unfold handleSNSMessage, asyncHandler, try_catch.
  destruct (includes ["SubscriptionConfirmation"; "Notification"]
              (req_header req "X-Amz-Sns-Message-Type")) eqn:Hinc.
  - apply includes_accepted in Hinc.
    rewrite (fn_untrusted_topic req w Hinc Htopic). cbn.
    eexists. unfold raised. cbn. repeat split; try reflexivity.
    intros Hno. contradiction.
  - assert (~ accepted_type req) as Hno.
    { intros Hacc. apply includes_accepted in Hacc. congruence. }
    rewrite (fn_unsupported_type req w Hno). cbn.
    eexists. unfold raised. cbn. repeat split; try reflexivity.
    intros Hacc. contradiction.
Qed.

(** C5 (amended).  On the notification path, a [Message] that parses is
    attached, decoded, as [res.locals.snsMessage], and control passes to
    [next()]: no response is sent, no request issued, nothing logged.  A
    [Message] that does not parse raises the parser's error instead. *)
Theorem notification_forwarded (req : Request) (w : World Exchange) :
  passes_checks req ->
  body_Type req = JsStr "Notification" ->
  let w' := snd (handleSNSMessage req w) in
  (forall payload,
      JSON_parse (get_prop (body req) "Message") = inr payload ->
      forwarded payload w w'
      /\ http_gets (w_state w') = http_gets (w_state w)
      /\ w_log w' = w_log w)
  /\ (forall err,
        JSON_parse (get_prop (body req) "Message") = inl err ->
        raised err w w').
Proof.
  intros Hpass Hty w'. subst w'.
  unfold handleSNSMessage, asyncHandler, try_catch.
  rewrite (fn_dispatch req Hpass), Hty. cbn.
  unfold bind, do_JSON_parse.
  destruct (JSON_parse (get_prop (body req) "Message")) as [err | payload].
  - cbn. split; [discriminate |].
    intros err' [= <-]. unfold raised. cbn. auto.
  - cbn. split; [| discriminate].
    intros payload' [= <-]. unfold forwarded. cbn. auto.
Qed.

(** C9.  An envelope that passes the three checks and whose body has a
    [Type] other than the two the middleware dispatches on leaves the
    world as it was: the async function returns normally, and no response
    is sent, no error raised, [next] not called, nothing logged. *)
Theorem unknown_body_type_is_dropped (req : Request) (w : World Exchange) :
  passes_checks req ->
  body_Type req <> JsStr "SubscriptionConfirmation" ->
  body_Type req <> JsStr "Notification" ->
  handleSNSMessage_fn req w = (Returned tt, w)
  /\ handleSNSMessage req w = (Returned tt, w).
Proof.
  intros Hpass Hconf Hnotif.
  assert (handleSNSMessage_fn req w = (Returned tt, w)) as Hfn.
  { rewrite (fn_dispatch req Hpass).
    rewrite (strict_eq_str_false _ _ Hconf), (strict_eq_str_false _ _ Hnotif).
    reflexivity. }
  split; [exact Hfn |].
  unfold handleSNSMessage, asyncHandler, try_catch. rewrite Hfn. reflexivity.
Qed.

End Middleware.
Section SubscriberExamples.
Import Sample.

Lemma handshake_request_passes : passes_checks handshake_request.
Proof. repeat split. left. reflexivity. Qed.

Lemma notification_request_passes : passes_checks notification_request.
Proof. repeat split. right. reflexivity. Qed.

Lemma notification_without_message_passes :
  passes_checks notification_without_message.
Proof. repeat split. right. reflexivity. Qed.

Lemma odd_body_request_passes : passes_checks odd_body_request.
Proof. repeat split. right. reflexivity. Qed.

Lemma handshake_confirmation_outcome_witness :
  raised
    (HandshakeConfirmationFailed 204
       (JsStr "https://sns.us-east-1.amazonaws.com/confirm"))
    fresh_exchange
    (snd (@handleSNSMessage config runtime http_no_content
            handshake_request fresh_exchange))
  /\ acknowledged fresh_exchange
       (snd (@handleSNSMessage config runtime http_unreachable
               handshake_request fresh_exchange)).
Proof.
  split.
  - destruct (@handshake_confirmation_outcome config runtime http_no_content
                handshake_request fresh_exchange
                handshake_request_passes eq_refl) as (_ & Hraise & _).
    apply (Hraise (mkResponse 204)); [reflexivity | discriminate].
  - destruct (@handshake_confirmation_outcome config runtime http_unreachable
                handshake_request fresh_exchange
                handshake_request_passes eq_refl) as (_ & _ & Hack).
    apply (Hack connection_refused); [reflexivity | discriminate].
Defined.

(** C1 refuted as stated: the confirmation endpoint cannot be reached, and
    the handshake is answered with the success acknowledgment; no error is
    raised. *)
Lemma handshake_network_failure_acknowledged :
  passes_checks handshake_request
  /\ req_header handshake_request "X-Amz-Sns-Message-Type"
     = Some "SubscriptionConfirmation"
  /\ body_Type handshake_request = JsStr "SubscriptionConfirmation"
  /\ @axios_get http_unreachable (get_prop (body handshake_request) "SubscribeURL")
     = inl connection_refused
  /\ response (w_state unreachable_outcome) = Some (200, SuccessResponse 200)
  /\ next_calls (w_state unreachable_outcome) = []
  /\ (forall e, ~ raised e fresh_exchange unreachable_outcome).
Proof.
  split; [exact handshake_request_passes |].
  repeat split.
  intros e (Hnext & _). vm_compute in Hnext. discriminate.
Qed.

Lemma untrusted_topic_rejected_witness :
  raised (UntrustedTopic (Some "arn:aws:sns:us-east-1:000000000000:other"))
    fresh_exchange
    (snd (@handleSNSMessage config runtime http_ok untrusted_notification
            fresh_exchange))
  /\ raised (UnsupportedMessageType (Some "UnsubscribeConfirmation"))
       fresh_exchange
       (snd (@handleSNSMessage config runtime http_ok foreign_request
               fresh_exchange)).
Proof.
  split.
  - destruct (@untrusted_topic_rejected config runtime http_ok
                untrusted_notification fresh_exchange ltac:(discriminate))
      as (e & Hraised & _ & _ & _ & Hwhen & _).
    rewrite (Hwhen (or_intror eq_refl)) in Hraised. exact Hraised.
  - destruct (@untrusted_topic_rejected config runtime http_ok foreign_request
                fresh_exchange ltac:(discriminate))
      as (e & Hraised & _ & _ & _ & _ & Hwhen).
    rewrite Hwhen in Hraised; [exact Hraised |].
    intros [Hty | Hty]; discriminate.
Defined.

(** C4 refuted as stated: the topic is not the trusted one, and the error
    raised is the one of the type check, not the one of the topic check. *)
Lemma untrusted_topic_unsupported_type :
  ~ trusted_topic foreign_request
  /\ raised (UnsupportedMessageType (Some "UnsubscribeConfirmation"))
            fresh_exchange foreign_outcome
  /\ ~ raised (UntrustedTopic (req_header foreign_request "X-Amz-Sns-Topic-Arn"))
              fresh_exchange foreign_outcome.
Proof.
  split; [discriminate |]. split.
  - repeat split.
  - intros (Hnext & _). vm_compute in Hnext. discriminate.
Qed.

Lemma notification_forwarded_witness :
  forwarded (JsObj [("tenant", JsStr "t1")]) fresh_exchange
    (snd (@handleSNSMessage config runtime http_ok notification_request
            fresh_exchange))
  /\ raised syntax_error fresh_exchange
       (snd (@handleSNSMessage config runtime http_ok
               notification_without_message fresh_exchange)).
Proof.
  split.
  - destruct (@notification_forwarded config runtime http_ok notification_request
                fresh_exchange notification_request_passes eq_refl)
      as (Hfwd & _).
    apply (Hfwd (JsObj [("tenant", JsStr "t1")])). reflexivity.
  - destruct (@notification_forwarded config runtime http_ok
                notification_without_message fresh_exchange
                notification_without_message_passes eq_refl)
      as (_ & Hraise).
    apply (Hraise syntax_error). reflexivity.
Defined.

(** C5 refuted as stated: a trusted notification envelope with a body of
    [Type] [Notification] and no [Message]; [JSON.parse] raises, so
    nothing is attached and [next()] is not called. *)
Lemma notification_without_message_raises :
  passes_checks notification_without_message
  /\ req_header notification_without_message "X-Amz-Sns-Message-Type"
     = Some "Notification"
  /\ body_Type notification_without_message = JsStr "Notification"
  /\ locals (w_state no_message_outcome) = ∅
  /\ next_calls (w_state no_message_outcome) = [NextWithError syntax_error]
  /\ (forall payload, ~ forwarded payload fresh_exchange no_message_outcome).
Proof.
  split; [exact notification_without_message_passes |].
  repeat split.
  intros payload (_ & Hnext & _). vm_compute in Hnext. discriminate.
Qed.

(** The forwarding scenario: the decoded payload is the only entry of
    [res.locals]; the [UnsubscribeURL], read into a local variable, is
    attached nowhere. *)
Example notification_scenario :
  locals (w_state scenario_outcome)
  = {[ "snsMessage" := JsObj [("tenant", JsStr "t1")] ]}
  /\ next_calls (w_state scenario_outcome) = [NextPlain]
  /\ response (w_state scenario_outcome) = None
  /\ (forall k, locals (w_state scenario_outcome) !! k <> Some (JsStr "https://x")).
Proof.
  repeat split.
  intros k Hk.
  assert (locals (w_state scenario_outcome)
          = {[ "snsMessage" := JsObj [("tenant", JsStr "t1")] ]}) as Hloc
    by reflexivity.
  rewrite Hloc in Hk. apply lookup_singleton_Some in Hk as [_ Hk].
  discriminate.
Qed.

Lemma unknown_body_type_is_dropped_witness :
  @handleSNSMessage config runtime http_ok odd_body_request fresh_exchange
  = (Returned tt, fresh_exchange).
Proof.
  apply (@unknown_body_type_is_dropped config runtime http_ok odd_body_request
           fresh_exchange odd_body_request_passes);
    discriminate.
Defined.

End SubscriberExamples.

End SubscriberProofs.

(** ** Properties of the S3 service *)

Module S3Proofs.
Import S3 S3Spec.

Lemma isString_as_string (v : JsValue) :
  isString v = true -> v = JsStr (as_string v).
Proof. destruct v; cbn; intros Hs; try discriminate. reflexivity. Qed.

Lemma every_isString (items : list JsValue) :
  forallb isString items = true <-> exists ss, items = map JsStr ss.
Proof.
  split.
  - induction items as [| v items IH]; cbn; intros Hall.
    + exists []. reflexivity.
    + apply andb_true_iff in Hall as [Hv Hrest].
      destruct (IH Hrest) as [ss ->].
      exists (as_string v :: ss). cbn. f_equal. apply isString_as_string, Hv.
  - intros [ss ->]. induction ss as [| s ss IH]; cbn; auto.
Qed.

Lemma as_string_strings (ss : list string) : map as_string (map JsStr ss) = ss.
Proof. induction ss as [| s ss IH]; cbn; [| rewrite IH]; reflexivity. Qed.

(** The shape test of [createLifecyclePolicy] accepts the well-shaped
    arguments and no other. *)
Lemma shape_test (v : JsValue) :
  (isString v || (isArray v && forallb isString (as_array v)))%bool = true
  <-> well_shaped v.
Proof.
  unfold well_shaped. split.
  - destruct v; cbn; try discriminate.
    + intros _. left. eauto.
    + intros Hall. right. apply every_isString in Hall as [ss ->]. eauto.
  - intros [[s ->] | [ss ->]]; cbn; [reflexivity |].
    apply every_isString. eauto.
Qed.

Section Requests.
Context `{Config}.

Lemma upload_request_bucket readable keyPath contentType metadata bucketName :
  put_Bucket (upload_request readable keyPath contentType metadata bucketName)
  = default S3_ASSETS_BUCKET bucketName.
Proof. destruct metadata; reflexivity. Qed.

Lemma upload_request_key readable keyPath contentType metadata bucketName :
  put_Key (upload_request readable keyPath contentType metadata bucketName)
  = keyPath.
Proof. destruct metadata; reflexivity. Qed.

End Requests.

Section ServiceProofs.
Context `{Config} `{Runtime} {B : Type} `{S3Client B}.

(** C6.  A prefix argument that is neither a string nor an array of
    strings makes [createLifecyclePolicy] fail with the [S3Error] of the
    shape test; the world is left as it was, so no request has gone to the
    backend. *)
Theorem createLifecyclePolicy_rejects_bad_prefix (objectKeyPrefix : JsValue)
    (bucketName : option string) (expDaysTTL : option Z)
    (w : World (S3State B)) :
  ~ well_shaped objectKeyPrefix ->
  createLifecyclePolicy objectKeyPrefix bucketName expDaysTTL w
  = (Thrown (mkError S3Error "Unsupported object key prefix format." JsUndefined), w)
  /\ calls (w_state (snd (createLifecyclePolicy objectKeyPrefix bucketName
                            expDaysTTL w)))
     = calls (w_state w).
Proof.
  intros Hshape.
  assert (createLifecyclePolicy objectKeyPrefix bucketName expDaysTTL w
          = (Thrown (mkError S3Error "Unsupported object key prefix format."
                             JsUndefined), w)) as Hrun.
  { unfold createLifecyclePolicy, bind.
    destruct (isString objectKeyPrefix) eqn:Hstr.
    { exfalso. apply Hshape, shape_test. rewrite Hstr. reflexivity. }
    destruct (isArray objectKeyPrefix
              && forallb isString (as_array objectKeyPrefix))%bool eqn:Harr.
    { exfalso. apply Hshape, shape_test. rewrite Hstr, Harr. reflexivity. }
    reflexivity. }
  rewrite Hrun. split; reflexivity.
Qed.

(** What [createLifecyclePolicy] does with a well-shaped argument, up to
    the answer of the backend. *)
Lemma createLifecyclePolicy_run (objectKeyPrefix : JsValue)
    (bucketName : option string) (expDaysTTL : option Z)
    (w : World (S3State B)) :
  well_shaped objectKeyPrefix ->
  let params := lifecycle_request objectKeyPrefix bucketName expDaysTTL in
  let request_log :=
    mkLog LvlDebug
      (LogText "[createLifecyclePolicy] object key prefix: %O"
               [JsArr (map JsStr (prefixes_of objectKeyPrefix))]) in
  createLifecyclePolicy objectKeyPrefix bucketName expDaysTTL w
  = match s3_putBucketLifecycleConfiguration params (backend (w_state w)) with
    | (inr res, b') =>
        (Returned true,
         mkWorld
           (w_log w ++ [request_log;
              mkLog LvlDebug
                (LogText "[createLifecyclePolicy] client responded with: %s"
                         [JsStr (JSON_stringify res)])])
           (mkS3State
              (calls (w_state w) ++ [CallPutBucketLifecycleConfiguration params])
              b'))
    | (inl err, b') =>
        (Returned false,
         mkWorld
           (w_log w ++ [request_log; mkLog LvlError (LogText (err_message err) [])])
           (mkS3State
              (calls (w_state w) ++ [CallPutBucketLifecycleConfiguration params])
              b'))
    end.
Proof.
  intros Hshape params request_log. subst params request_log.
  unfold lifecycle_request, expiration_rules.
  unfold createLifecyclePolicy, bind, try_catch, await_s3.
  destruct Hshape as [[s ->] | [ss ->]]; cbn.
  - destruct (s3_putBucketLifecycleConfiguration _ _) as [[err | res] b'];
      cbn; rewrite <- app_assoc; reflexivity.
  - assert (forallb isString (map JsStr ss) = true) as ->
      by (apply every_isString; eauto).
    cbn.
    destruct (s3_putBucketLifecycleConfiguration _ _) as [[err | res] b'];
      cbn; rewrite <- app_assoc; reflexivity.
Qed.

(** C7.  With a well-shaped prefix argument [createLifecyclePolicy] sends
    one request, the lifecycle configuration with a rule per prefix, and
    returns a boolean without ever raising: [true] when the backend
    accepts the request, [false], after logging the backend's message at
    error severity, when the backend rejects it. *)
Theorem createLifecyclePolicy_returns_boolean (objectKeyPrefix : JsValue)
    (bucketName : option string) (expDaysTTL : option Z)
    (w : World (S3State B)) :
  well_shaped objectKeyPrefix ->
  let params := lifecycle_request objectKeyPrefix bucketName expDaysTTL in
  let out := createLifecyclePolicy objectKeyPrefix bucketName expDaysTTL w in
  (exists ok, fst out = Returned ok)
  /\ calls (w_state (snd out))
     = (calls (w_state w) ++ [CallPutBucketLifecycleConfiguration params])%list
  /\ (forall res b',
        s3_putBucketLifecycleConfiguration params (backend (w_state w))
        = (inr res, b') ->
        fst out = Returned true)
  /\ (forall err b',
        s3_putBucketLifecycleConfiguration params (backend (w_state w))
        = (inl err, b') ->
        fst out = Returned false
        /\ mkLog LvlError (LogText (err_message err) []) ∈ w_log (snd out)).
Proof.
  intros Hshape params out. subst out.
  rewrite (createLifecyclePolicy_run _ bucketName expDaysTTL w Hshape).
  fold params.
  destruct (s3_putBucketLifecycleConfiguration params (backend (w_state w)))
    as [[err | res] b']; cbn.
  - split; [eauto |]. split; [reflexivity |]. split; [discriminate |].
    intros err' b'' [= <- <-]. split; [reflexivity |].
    rewrite elem_of_app, !elem_of_cons. auto.
  - split; [eauto |]. split; [reflexivity |]. split; [reflexivity |].
    discriminate.
Qed.

(** [s3KeyExists], up to the answer of the backend. *)
Lemma s3KeyExists_run (keyPath : string) (bucketName : option string)
    (w : World (S3State B)) :
  let config := mkHead (default S3_ASSETS_BUCKET bucketName) keyPath in
  s3KeyExists keyPath bucketName w
  = match s3_headObject config (backend (w_state w)) with
    | (inr meta, b') =>
        (Returned
           (Some (mkEvent (head_Bucket config) keyPath
                          (getStorageUrl (head_Bucket config) keyPath)
                          (ho_ETag meta) (ho_Metadata meta))),
         mkWorld
           (w_log w ++ [mkLog LvlDebug
              (LogText ("[s3KeyExists] found S3 key "
                          +:+ pretty (ho_ContentLength meta)
                          +:+ " bytes: " +:+ keyPath) [])])
           (mkS3State (calls (w_state w) ++ [CallHeadObject config]) b'))
    | (inl err, b') =>
        (if strict_eq_str (err_code err) "NotFound" then Returned None
         else Thrown (mkError UploadError
                        ("Failed to request file meta from S3. "
                           +:+ err_message err) JsUndefined),
         mkWorld
           (w_log w ++ [mkLog LvlError (LogText (err_message err) [])])
           (mkS3State (calls (w_state w) ++ [CallHeadObject config]) b'))
    end.
Proof.
  cbv zeta. unfold s3KeyExists, try_catch, bind, await_s3.
  destruct (s3_headObject _ _) as [[err | meta] b']; cbn; [| reflexivity].
  destruct (strict_eq_str (err_code err) "NotFound"); reflexivity.
Qed.

(** C3 (amended).  When the backend rejects the [headObject] request with
    the code [NotFound], [s3KeyExists] returns the absent result and does
    not raise; the backend's message is logged at error severity.  A
    rejection with any other code raises an [UploadError], and
    [s3KeyExists] raises in no other case. *)
Theorem s3KeyExists_not_found (keyPath : string) (bucketName : option string)
    (w : World (S3State B)) :
  let config := mkHead (default S3_ASSETS_BUCKET bucketName) keyPath in
  let out := s3KeyExists keyPath bucketName w in
  (forall err b',
      s3_headObject config (backend (w_state w)) = (inl err, b') ->
      err_code err = JsStr "NotFound" ->
      fst out = Returned None
      /\ w_log (snd out)
         = (w_log w ++ [mkLog LvlError (LogText (err_message err) [])])%list)
  /\ (forall err b',
        s3_headObject config (backend (w_state w)) = (inl err, b') ->
        err_code err <> JsStr "NotFound" ->
        fst out
        = Thrown (mkError UploadError
                    ("Failed to request file meta from S3. " +:+ err_message err)
                    JsUndefined))
  /\ (forall e,
        fst out = Thrown e ->
        err_class e = UploadError
        /\ exists err b',
             s3_headObject config (backend (w_state w)) = (inl err, b')
             /\ err_code err <> JsStr "NotFound").
Proof.
  intros config out. subst out. rewrite s3KeyExists_run. fold config.
  destruct (s3_headObject config (backend (w_state w)))
    as [[err | meta] b']; cbn.
  - destruct (strict_eq_str (err_code err) "NotFound") eqn:Hcode.
    + apply strict_eq_str_true in Hcode.
      split; [| split].
      * intros err' b'' [= <- <-] _. split; reflexivity.
      * intros err' b'' [= <- <-] Hne. contradiction.
      * discriminate.
    + assert (err_code err <> JsStr "NotFound") as Hne.
      { intros Heq. apply strict_eq_str_true in Heq. congruence. }
      split; [| split].
      * intros err' b'' [= <- <-] Heq. contradiction.
      * intros err' b'' [= <- <-] _. reflexivity.
      * intros e [= <-]. split; [reflexivity |]. eauto.
  - split; [| split]; discriminate.
Qed.

(** [s3StreamUpload], up to the answer of the backend. *)
Lemma s3StreamUpload_run (readable : Readable) (keyPath contentType : string)
    (metadata : option Metadata) (bucketName : option string)
    (w : World (S3State B)) :
  let config := upload_request readable keyPath contentType metadata bucketName in
  s3StreamUpload readable keyPath contentType metadata bucketName w
  = match s3_upload config (backend (w_state w)) with
    | (inr meta, b') =>
        (Returned (mkEvent (sd_Bucket meta) (sd_Key meta)
                           (getStorageUrl (sd_Bucket meta) (sd_Key meta))
                           (sd_ETag meta) None),
         mkWorld
           (w_log w ++ [mkLog LvlDebug
              (LogText ("[s3StreamUpload] successfully uploaded: "
                          +:+ sd_Location meta) [])])
           (mkS3State (calls (w_state w) ++ [CallUpload config]) b'))
    | (inl err, b') =>
        (Thrown (mkError UploadError
                   ("Failed to upload file to S3. " +:+ err_message err)
                   JsUndefined),
         mkWorld
           (w_log w ++ [mkLog LvlError (LogText (err_message err) [])])
           (mkS3State (calls (w_state w) ++ [CallUpload config]) b'))
    end.
Proof.
  cbv zeta. unfold upload_request, s3StreamUpload, try_catch, bind, await_s3.
  destruct metadata as [m |]; cbn;
    destruct (s3_upload _ _) as [[err | meta] b']; reflexivity.
Qed.

(** C8.  Over a backend that honours the round trip, a stream uploaded
    with key [K] to bucket [B'] is found by the probe for [K] in [B'] that
    follows: the probe returns a storage event with key [K], bucket [B']
    and the entity tag the upload returned, and in both events the storage
    URL is the join of the configured endpoint, [B'] and [K]. *)
Theorem upload_then_probe_round_trip `{!S3RoundTrip B}
    (readable : Readable) (K contentType : string)
    (metadata : option Metadata) (bucketName : option string)
    (w w1 : World (S3State B)) (uploaded : StorageEvent) :
  s3StreamUpload readable K contentType metadata bucketName w
  = (Returned uploaded, w1) ->
  let B' := default S3_ASSETS_BUCKET bucketName in
  exists probed w2,
    s3KeyExists K bucketName w1 = (Returned (Some probed), w2)
    /\ key probed = K /\ bucket probed = B'
    /\ key uploaded = K /\ bucket uploaded = B'
    /\ etag probed = etag uploaded
    /\ storageUrl uploaded = urljoin [S3_ENDPOINT_URL; B'; K]
    /\ storageUrl probed = urljoin [S3_ENDPOINT_URL; B'; K].
Proof.
  intros Hup B'. subst B'. rewrite s3StreamUpload_run in Hup.
  destruct (s3_upload _ (backend (w_state w))) as [[err | sd] b1] eqn:Hsend;
    [discriminate |].
  injection Hup as <- <-.
  destruct (upload_echo _ _ _ _ Hsend) as [Hbucket Hkey].
  destruct (head_after_upload _ _ _ _ Hsend) as (ho & b2 & Hhead & Htag).
  rewrite upload_request_bucket in Hbucket, Hhead.
  rewrite upload_request_key in Hkey, Hhead.
  rewrite s3KeyExists_run. cbn. rewrite Hhead.
  eexists _, _. split; [reflexivity |]. cbn.
  rewrite Hbucket, Hkey. unfold getStorageUrl. auto 10.
Qed.

End ServiceProofs.
Section S3Examples.
Import Sample.

(** The in-memory backend honours the round trip. *)
#[export] Instance mem_round_trip : S3RoundTrip MemS3.
Proof.
  split.
  - intros req b sd b'. cbn. unfold mem_upload.
    case_bool_decide; intros [= <- <-]; split; reflexivity.
  - intros req b sd b'. cbn. unfold mem_upload, mem_headObject.
    case_bool_decide; intros [= <- <-]. cbn.
    rewrite lookup_insert_eq. cbn. eauto.
Qed.

Lemma number_not_well_shaped : ~ well_shaped (JsNum 5).
Proof. intros Hshape. apply shape_test in Hshape. discriminate. Qed.

Lemma mixed_array_not_well_shaped : ~ well_shaped (JsArr [JsStr "tiles/"; JsNum 5]).
Proof. intros Hshape. apply shape_test in Hshape. discriminate. Qed.

Lemma createLifecyclePolicy_rejects_bad_prefix_witness :
  calls (w_state (snd (createLifecyclePolicy (JsNum 5) None None empty_assets)))
  = []
  /\ createLifecyclePolicy (JsArr [JsStr "tiles/"; JsNum 5]) None None empty_assets
     = (Thrown (mkError S3Error "Unsupported object key prefix format." JsUndefined),
        empty_assets).
Proof.
  split.
  - apply (createLifecyclePolicy_rejects_bad_prefix (JsNum 5) None None
             empty_assets number_not_well_shaped).
  - apply (createLifecyclePolicy_rejects_bad_prefix
             (JsArr [JsStr "tiles/"; JsNum 5]) None None empty_assets
             mixed_array_not_well_shaped).
Defined.

Lemma prefix_list_well_shaped : well_shaped (JsArr [JsStr "tiles/a"; JsStr "tiles/b"]).
Proof. right. exists ["tiles/a"; "tiles/b"]. reflexivity. Qed.

Lemma prefix_well_shaped : well_shaped (JsStr "tiles/").
Proof. left. exists "tiles/". reflexivity. Qed.

Lemma createLifecyclePolicy_returns_boolean_witness :
  fst (createLifecyclePolicy (JsArr [JsStr "tiles/a"; JsStr "tiles/b"]) None
         (Some 7) empty_assets) = Returned true
  /\ fst (createLifecyclePolicy (JsStr "tiles/") None None no_bucket)
     = Returned false.
Proof.
  split.
  - destruct (createLifecyclePolicy_returns_boolean
                (JsArr [JsStr "tiles/a"; JsStr "tiles/b"]) None (Some 7)
                empty_assets prefix_list_well_shaped) as (_ & _ & Hyes & _).
    eapply Hyes. reflexivity.
  - destruct (createLifecyclePolicy_returns_boolean (JsStr "tiles/") None None
                no_bucket prefix_well_shaped) as (_ & _ & _ & Hno).
    eapply Hno. reflexivity.
Defined.

Lemma s3KeyExists_not_found_witness :
  fst (s3KeyExists "tiles/missing.png" None empty_assets) = Returned None
  /\ w_log (snd (s3KeyExists "tiles/missing.png" None empty_assets))
     = [mkLog LvlError (LogText "null" [])].
Proof.
  destruct (s3KeyExists_not_found "tiles/missing.png" None empty_assets)
    as (Habsent & _ & _).
  apply (Habsent NotFound (backend (w_state empty_assets))); reflexivity.
Defined.

(** C3 refuted as stated: the key is not in the bucket, the probe returns
    the absent result, and the log holds an entry of error severity. *)
Lemma s3KeyExists_not_found_logs_error :
  objects (backend (w_state empty_assets))
    !! ("marapp-services-assets-dev", "tiles/missing.png") = None
  /\ fst (s3KeyExists "tiles/missing.png" None empty_assets) = Returned None
  /\ logged_at LvlError
       (w_log (snd (s3KeyExists "tiles/missing.png" None empty_assets)))
     = [mkLog LvlError (LogText "null" [])].
Proof. repeat split. Qed.

Lemma upload_then_probe_round_trip_witness :
  exists probed w2,
    s3KeyExists "tiles/1.png" None
      (snd (s3StreamUpload "PNGDATA" "tiles/1.png" "image/png" None None
              empty_assets))
    = (Returned (Some probed), w2)
    /\ key probed = "tiles/1.png"
    /\ bucket probed = "marapp-services-assets-dev"
    /\ etag probed = "etag-7-PNGDATA"
    /\ storageUrl probed
       = "http://localhost:4572/marapp-services-assets-dev/tiles/1.png".
Proof.
  destruct (@upload_then_probe_round_trip config runtime MemS3 mem_client
              mem_round_trip "PNGDATA" "tiles/1.png" "image/png"
              None None empty_assets
              (snd (@s3StreamUpload config runtime MemS3 mem_client
                      "PNGDATA" "tiles/1.png" "image/png" None None
                      empty_assets))
              (mkEvent "marapp-services-assets-dev" "tiles/1.png"
                 "http://localhost:4572/marapp-services-assets-dev/tiles/1.png"
                 "etag-7-PNGDATA" None)
              ltac:(vm_compute; reflexivity))
    as (probed & w2 & Hprobe & Hkey & Hbucket & _ & _ & Htag & _ & Hurl).
  exists probed, w2. auto.
Defined.

End S3Examples.

End S3Proofs.

(** ** Properties of the reference check *)

Module MongoProofs.
Import Mongo MongoSpec.

(** The test [res.every(...)] over the documents fetched: every stored
    document that is referenced carries the expected organization. *)
Lemma every_same_organization (model : Model) (refIds : list string)
    (organization : string) :
  forallb (fun r => strict_eq_str (Mongo.organization r) organization)
          (filter (fun d => doc_id d ∈ refIds) model) = true
  <-> same_workspace model refIds organization.
Proof.
  unfold same_workspace. rewrite <- Is_true_true, forallb_True, Forall_forall.
  split.
  - intros Hall d Hin Href. apply strict_eq_str_true, Is_true_true, Hall.
    apply list_elem_of_filter. auto.
  - intros Hall d [Href Hin]%list_elem_of_filter.
    apply Is_true_true, strict_eq_str_true, Hall; assumption.
Qed.

(** [checkWorkspaceRefs] with an organization and a non-empty list of
    references: one query, then the verdict of the test. *)
Lemma checkWorkspaceRefs_run (model : Model) (refIds : list string)
    (organization : string) (w : World DbState) :
  organization <> EmptyString -> refIds <> [] ->
  checkWorkspaceRefs model (Some refIds) organization w
  = (if forallb (fun r => strict_eq_str (Mongo.organization r) organization)
                (filter (fun d => doc_id d ∈ refIds) model)
     then Returned tt else Thrown CrossTenantReference,
     mkWorld
       (w_log w ++ [mkLog LvlDebug
          (LogText "[checkWorkspaceRefs] checking references for organization %s: %s"
                   [JsStr organization; JsArr (map JsStr refIds)])])
       (mkDbState (queries (w_state w) ++ [refIds]))).
Proof.
  intros Horg Hrefs. unfold checkWorkspaceRefs. cbn [truthy].
  rewrite bool_decide_eq_false_2 by exact Horg. cbn [negb].
  destruct refIds as [| r refIds]; [contradiction |].
  cbn [length Nat.eqb negb].
  unfold find_in_select_organization. autounfold with async. cbn.
  destruct (forallb _ _); reflexivity.
Qed.

Lemma checkWorkspaceRefs_empty (model : Model) (organization : string)
    (w : World DbState) :
  organization <> EmptyString ->
  checkWorkspaceRefs model (Some []) organization w = (Returned tt, w).
Proof.
  intros Horg. unfold checkWorkspaceRefs. cbn [truthy].
  rewrite bool_decide_eq_false_2 by exact Horg. reflexivity.
Qed.

(** C2.  With a non-empty organization, [checkWorkspaceRefs] succeeds
    exactly when every stored document whose id is referenced carries that
    organization; ids without a stored document play no part.  A
    referenced stored document with another value there makes it fail with
    the [DocumentError] of code 400.  With no reference it succeeds and
    leaves the world as it was: the store is not queried. *)
Theorem checkWorkspaceRefs_same_tenant (model : Model) (refIds : list string)
    (organization : string) (w : World DbState) :
  organization <> EmptyString ->
  let out := checkWorkspaceRefs model (Some refIds) organization w in
  (fst out = Returned tt <-> same_workspace model refIds organization)
  /\ (forall d,
        d ∈ model -> doc_id d ∈ refIds ->
        Mongo.organization d <> JsStr organization ->
        fst out = Thrown CrossTenantReference)
  /\ (refIds = [] -> out = (Returned tt, w))
  /\ (refIds <> [] ->
      queries (w_state (snd out)) = (queries (w_state w) ++ [refIds])%list).
Proof.
  intros Horg out. subst out.
  destruct (decide (refIds = [])) as [-> | Hrefs].
  - rewrite (checkWorkspaceRefs_empty model organization w Horg). cbn.
    split; [| split; [| split]].
    + split; [| reflexivity]. intros _ d _ Href. inversion Href.
    + intros d _ Href. inversion Href.
    + reflexivity.
    + contradiction.
  - rewrite (checkWorkspaceRefs_run model refIds organization w Horg Hrefs). cbn.
    pose proof (every_same_organization model refIds organization) as Hevery.
    destruct (forallb _ _).
    + split; [| split; [| split]].
      * split; [intros _; apply Hevery; reflexivity | reflexivity].
      * intros d Hin Href Hne. exfalso. apply Hne.
        apply (proj1 Hevery eq_refl d Hin Href).
      * contradiction.
      * reflexivity.
    + split; [| split; [| split]].
      * split; [discriminate |]. intros Hsame. apply Hevery in Hsame. discriminate.
      * reflexivity.
      * contradiction.
      * reflexivity.
Qed.

(** C10.  A referenced stored document whose organization attribute is
    absent or null makes [checkWorkspaceRefs] fail with the
    [DocumentError] of code 400. *)
Theorem checkWorkspaceRefs_missing_tenant_attribute (model : Model)
    (refIds : list string) (organization : string) (w : World DbState) (d : Doc) :
  organization <> EmptyString ->
  d ∈ model -> doc_id d ∈ refIds ->
  Mongo.organization d = JsUndefined \/ Mongo.organization d = JsNull ->
  fst (checkWorkspaceRefs model (Some refIds) organization w)
  = Thrown CrossTenantReference.
Proof.
  intros Horg Hin Href Hattr.
  assert (refIds <> []) as Hrefs by (intros ->; inversion Href).
  rewrite (checkWorkspaceRefs_run model refIds organization w Horg Hrefs). cbn.
  destruct (forallb _ _) eqn:Hall; [| reflexivity].
  apply every_same_organization in Hall.
  specialize (Hall d Hin Href).
  destruct Hattr as [Hattr | Hattr]; congruence.
Qed.

Section MongoExamples.
Import Sample.

Lemma checkWorkspaceRefs_same_tenant_witness :
  fst (checkWorkspaceRefs layers
         (Some ["5f0000000000000000000001"; "5f00000000000000000000ff"])
         "org-a" fresh_db) = Returned tt
  /\ fst (checkWorkspaceRefs layers
            (Some ["5f0000000000000000000001"; "5f0000000000000000000003"])
            "org-a" fresh_db) = Thrown CrossTenantReference
  /\ checkWorkspaceRefs layers (Some []) "org-a" fresh_db
     = (Returned tt, fresh_db).
Proof.
  split; [| split].
  - destruct (checkWorkspaceRefs_same_tenant layers
                ["5f0000000000000000000001"; "5f00000000000000000000ff"]
                "org-a" fresh_db ltac:(discriminate)) as (Hok & _).
    apply Hok. apply every_same_organization. reflexivity.
  - destruct (checkWorkspaceRefs_same_tenant layers
                ["5f0000000000000000000001"; "5f0000000000000000000003"]
                "org-a" fresh_db ltac:(discriminate)) as (_ & Hfail & _).
    apply (Hfail (mkDoc "5f0000000000000000000003" (JsStr "org-b")));
      [set_solver | set_solver | discriminate].
  - destruct (checkWorkspaceRefs_same_tenant layers [] "org-a" fresh_db
                ltac:(discriminate)) as (_ & _ & Hempty & _).
    apply Hempty. reflexivity.
Defined.

Lemma checkWorkspaceRefs_missing_tenant_attribute_witness :
  (forall d t,
      d ∈ layers ->
      doc_id d ∈ ["5f0000000000000000000001"; "5f0000000000000000000004"] ->
      Mongo.organization d = JsStr t -> t = "org-a")
  /\ fst (checkWorkspaceRefs layers
            (Some ["5f0000000000000000000001"; "5f0000000000000000000004"])
            "org-a" fresh_db) = Thrown CrossTenantReference.
Proof.
  split.
  - intros d t Hin Href Horg. unfold layers in Hin.
    repeat (apply elem_of_cons in Hin as [-> | Hin]); cbn in Href, Horg.
    + congruence.
    + repeat (apply elem_of_cons in Href as [Href | Href]; [discriminate |]).
      inversion Href.
    + repeat (apply elem_of_cons in Href as [Href | Href]; [discriminate |]).
      inversion Href.
    + discriminate.
    + inversion Hin.
  - apply (checkWorkspaceRefs_missing_tenant_attribute layers
             ["5f0000000000000000000001"; "5f0000000000000000000004"]
             "org-a" fresh_db (mkDoc "5f0000000000000000000004" JsUndefined));
      [discriminate | set_solver | set_solver | left; reflexivity].
Defined.

End MongoExamples.
End MongoProofs.

(** ** More on the subscription middleware *)

Module SubscriberMore.
Import Subscriber SubscriberSpec SubscriberProofs MoreSpec.

Section Handler.
Context `{Config} `{Runtime} `{HttpClient}.

(** Step 2 passes, step 3 fails. *)
Lemma fn_missing_body (req : Request) (w : World Exchange) :
  accepted_type req -> trusted_topic req -> ~ has_body req ->
  handleSNSMessage_fn req w = (Thrown MalformedEnvelope, w).
Proof.
  intros Hty Htopic Hbody. unfold handleSNSMessage_fn.
  apply includes_accepted in Hty. rewrite Hty. cbn [negb].
  rewrite bool_decide_eq_true_2 by exact Htopic. cbn [negb].
  unfold has_body in Hbody. apply not_true_is_false in Hbody. rewrite Hbody.
  reflexivity.
Qed.

(** An unhandled message type is refused first: whatever the topic and the
    body, the handler raises the 400 error that quotes the header (or
    [undefined] when the header is absent) and leaves the rest of the
    world as it was. *)
Theorem unsupported_type_rejected (req : Request) (w : World Exchange) :
  ~ accepted_type req ->
  handleSNSMessage req w
  = (Returned tt,
     mkWorld (w_log w)
       (mkExchange (http_gets (w_state w)) (response (w_state w))
          (locals (w_state w))
          (next_calls (w_state w)
             ++ [NextWithError
                   (UnsupportedMessageType
                      (req_header req "X-Amz-Sns-Message-Type"))]))).
Proof.
  intros Hno. unfold handleSNSMessage, asyncHandler, try_catch.
  rewrite (fn_unsupported_type req w Hno). reflexivity.
Qed.

Lemma truthy_false (v : JsValue) : truthy v = false <-> falsy_body v.
Proof.
  unfold falsy_body. destruct v as [| | b | n | s | items | fields]; cbn.
  - intuition.
  - intuition.
  - destruct b; intuition congruence.
  - rewrite negb_false_iff, Z.eqb_eq. split; [intros ->; auto 6 |].
    intros [? | [? | [? | [[= ->] | ?]]]]; try discriminate. reflexivity.
  - rewrite negb_false_iff, bool_decide_eq_true.
    split; [intros ->; auto 6 |].
    intros [? | [? | [? | [? | [= ->]]]]]; try discriminate. reflexivity.
  - split; [discriminate |]. intros [? | [? | [? | [? | ?]]]]; discriminate.
  - split; [discriminate |]. intros [? | [? | [? | [? | ?]]]]; discriminate.
Qed.

(** A body the presence check refuses is answered with the 400 error of
    step 3, and nothing else happens: no request goes out, nothing is
    logged, no response is sent. *)
Theorem missing_body_rejected (req : Request) (w : World Exchange) :
  accepted_type req -> trusted_topic req -> falsy_body (body req) ->
  handleSNSMessage req w
  = (Returned tt,
     mkWorld (w_log w)
       (mkExchange (http_gets (w_state w)) (response (w_state w))
          (locals (w_state w))
          (next_calls (w_state w) ++ [NextWithError MalformedEnvelope]))).
Proof.
  intros Hty Htopic Hbody. unfold handleSNSMessage, asyncHandler, try_catch.
  rewrite (fn_missing_body req w Hty Htopic); [reflexivity |].
  unfold has_body. apply truthy_false in Hbody. congruence.
Qed.

(** A confirmation answered with 200: one request to the [SubscribeURL],
    one entry of debug severity in the log, the success acknowledgment as
    the response, and no call of [next]. *)
Theorem handshake_success_acknowledged (req : Request) (w : World Exchange)
    (resp : AxiosResponse) :
  passes_checks req ->
  body_Type req = JsStr "SubscriptionConfirmation" ->
  axios_get (get_prop (body req) "SubscribeURL") = inr resp ->
  status resp = 200 ->
  handleSNSMessage req w
  = (Returned tt,
     mkWorld
       (w_log w ++ [mkLog LvlDebug
                      (LogText "Successfully confirmed SNS subscription." [])])
       (mkExchange
          (http_gets (w_state w) ++ [get_prop (body req) "SubscribeURL"])
          (Some (200, SuccessResponse 200))
          (locals (w_state w)) (next_calls (w_state w)))).
Proof.
  intros Hpass Hty Hget Hst.
  rewrite (handshake_path req w Hpass Hty).
  unfold asyncHandler, try_catch, bind.
  rewrite (confirm_ok _ w resp Hget Hst). reflexivity.
Qed.

(** [handleSubscriptionResponse] requests the URL once and writes one log
    entry, of debug severity exactly when the request resolved with 200;
    it lets no error escape but a [SubscriptionError]. *)
Theorem confirmation_logged_once (url : JsValue) (w : World Exchange) :
  exists entry,
    snd (handleSubscriptionResponse url w) = after_get url w entry
    /\ (log_level entry = LvlDebug
        <-> exists resp, axios_get url = inr resp /\ status resp = 200)
    /\ (forall e,
          fst (handleSubscriptionResponse url w) = Thrown e ->
          err_class e = SubscriptionError).
Proof.
  destruct (axios_get url) as [err | resp] eqn:Hget.
  - rewrite (confirm_rejected url w err Hget). cbn.
    eexists. split; [reflexivity |]. cbn. split.
    + split; [discriminate | intros (resp & [=] & _)].
    + unfold instanceof. case_bool_decide; [| discriminate].
      intros e [= <-]. assumption.
  - destruct (decide (status resp = 200)) as [Hst | Hst].
    + rewrite (confirm_ok url w resp Hget Hst). cbn.
      eexists. split; [reflexivity |]. cbn. split; [| discriminate].
      split; eauto.
    + rewrite (confirm_other_status url w resp Hget Hst). cbn.
      eexists. split; [reflexivity |]. cbn. split.
      * split; [discriminate |]. intros (resp' & [= <-] & Hok). contradiction.
      * intros e [= <-]. reflexivity.
Qed.

(** Once the three checks pass, the body alone decides: two envelopes with
    the same body are handled alike, whatever their message-type headers. *)
Theorem dispatch_ignores_header (req1 req2 : Request) (w : World Exchange) :
  passes_checks req1 -> passes_checks req2 ->
  body req1 = body req2 ->
  handleSNSMessage req1 w = handleSNSMessage req2 w.
Proof.
  intros Hpass1 Hpass2 Hbody.
  unfold handleSNSMessage, asyncHandler, try_catch.
  rewrite (fn_dispatch req1 Hpass1), (fn_dispatch req2 Hpass2).
  unfold body_Type. rewrite Hbody. reflexivity.
Qed.

(** The booleans the handler tests decide the three checks. *)
Lemma checks_decided (req : Request) :
  (includes ["SubscriptionConfirmation"; "Notification"]
            (req_header req "X-Amz-Sns-Message-Type")
   && bool_decide (req_header req "X-Amz-Sns-Topic-Arn" = SNS_TOPIC_SUBSCRIPTION_ARN)
   && truthy (body req))%bool = true
  <-> passes_checks req.
Proof.
  unfold passes_checks, trusted_topic, has_body.
  rewrite !andb_true_iff, bool_decide_eq_true, includes_accepted. tauto.
Qed.

(** The handler always completes, in one of four ways: it hands an error
    to [next]; it answers with the success acknowledgment; it attaches a
    payload and calls [next()]; or it does nothing at all.  It never both
    answers and calls [next], and never calls [next] twice. *)
Theorem handler_outcomes (req : Request) (w : World Exchange) :
  fst (handleSNSMessage req w) = Returned tt
  /\ ((exists e, raised e w (snd (handleSNSMessage req w)))
      \/ (acknowledged w (snd (handleSNSMessage req w))
          /\ locals (w_state (snd (handleSNSMessage req w))) = locals (w_state w))
      \/ (exists payload, forwarded payload w (snd (handleSNSMessage req w)))
      \/ snd (handleSNSMessage req w) = w).
Proof.
  destruct (includes ["SubscriptionConfirmation"; "Notification"]
              (req_header req "X-Amz-Sns-Message-Type")
            && bool_decide (req_header req "X-Amz-Sns-Topic-Arn"
                            = SNS_TOPIC_SUBSCRIPTION_ARN)
            && truthy (body req))%bool eqn:Hchecks.
  - apply checks_decided in Hchecks.
    unfold handleSNSMessage, asyncHandler, try_catch.
    rewrite (fn_dispatch req Hchecks).
    destruct (strict_eq_str (body_Type req) "SubscriptionConfirmation").
    + unfold bind.
      destruct (confirmation_logged_once (get_prop (body req) "SubscribeURL") w)
        as (entry & Hworld & _ & _).
      destruct (handleSubscriptionResponse _ w) as [[[] | e] w1]; cbn in Hworld;
        subst w1; cbn.
      * split; [reflexivity |]. right. left. unfold acknowledged. cbn. auto.
      * split; [reflexivity |]. left. exists e. unfold raised. cbn. auto.
    + destruct (strict_eq_str (body_Type req) "Notification").
      * unfold bind, do_JSON_parse.
        destruct (JSON_parse _) as [err | payload]; cbn.
        -- split; [reflexivity |]. left. exists err. unfold raised. cbn. auto.
        -- split; [reflexivity |]. right. right. left. exists payload.
           unfold forwarded. cbn. auto.
      * cbn. auto.
  - assert (exists e, handleSNSMessage_fn req w = (Thrown e, w)) as [e Hfn].
    { apply andb_false_iff in Hchecks as [Hchecks | Hbody].
      - apply andb_false_iff in Hchecks as [Hty | Htopic].
        + eexists. apply fn_unsupported_type.
          intros Hacc. apply includes_accepted in Hacc. congruence.
        + destruct (includes ["SubscriptionConfirmation"; "Notification"]
                      (req_header req "X-Amz-Sns-Message-Type")) eqn:Hty.
          * eexists. apply fn_untrusted_topic.
            -- apply includes_accepted, Hty.
            -- apply bool_decide_eq_false in Htopic. exact Htopic.
          * eexists. apply fn_unsupported_type.
            intros Hacc. apply includes_accepted in Hacc. congruence.
      - destruct (includes ["SubscriptionConfirmation"; "Notification"]
                    (req_header req "X-Amz-Sns-Message-Type")) eqn:Hty.
        + destruct (decide (req_header req "X-Amz-Sns-Topic-Arn" = SNS_TOPIC_SUBSCRIPTION_ARN))
            as [Htopic | Htopic].
          * eexists. apply fn_missing_body; [apply includes_accepted, Hty | exact Htopic |].
            unfold has_body. congruence.
          * eexists. apply fn_untrusted_topic; [apply includes_accepted, Hty | exact Htopic].
        + eexists. apply fn_unsupported_type.
          intros Hacc. apply includes_accepted in Hacc. congruence. }
    unfold handleSNSMessage, asyncHandler, try_catch. rewrite Hfn. cbn.
    split; [reflexivity |]. left. exists e. unfold raised. cbn. auto.
Qed.

(** Outside the handshake path no request leaves the service. *)
Theorem get_only_on_handshake (req : Request) (w : World Exchange) :
  ~ (passes_checks req /\ body_Type req = JsStr "SubscriptionConfirmation") ->
  http_gets (w_state (snd (handleSNSMessage req w))) = http_gets (w_state w).
Proof.
  intros Hno.
  destruct (includes ["SubscriptionConfirmation"; "Notification"]
              (req_header req "X-Amz-Sns-Message-Type")
            && bool_decide (req_header req "X-Amz-Sns-Topic-Arn"
                            = SNS_TOPIC_SUBSCRIPTION_ARN)
            && truthy (body req))%bool eqn:Hchecks.
  - apply checks_decided in Hchecks.
    unfold handleSNSMessage, asyncHandler, try_catch.
    rewrite (fn_dispatch req Hchecks).
    destruct (strict_eq_str (body_Type req) "SubscriptionConfirmation") eqn:Hconf.
    { apply strict_eq_str_true in Hconf. exfalso. apply Hno. auto. }
    destruct (strict_eq_str (body_Type req) "Notification").
    + unfold bind, do_JSON_parse.
      destruct (JSON_parse _) as [err | payload]; reflexivity.
    + reflexivity.
  - unfold handleSNSMessage, asyncHandler, try_catch, handleSNSMessage_fn.
    apply andb_false_iff in Hchecks as [Hchecks | Hbody].
    + apply andb_false_iff in Hchecks as [-> | Htopic]; [reflexivity |].
      destruct (includes _ _); [| reflexivity]. cbn [negb].
      rewrite Htopic. reflexivity.
    + destruct (includes _ _); [| reflexivity]. cbn [negb].
      destruct (bool_decide _); [| reflexivity]. cbn [negb].
      rewrite Hbody. reflexivity.
Qed.

End Handler.
Section MoreSubscriberExamples.
Import Sample MoreSample.

Lemma unsupported_type_rejected_witness :
  next_calls (w_state (snd (@handleSNSMessage config runtime http_ok
                              foreign_request fresh_exchange)))
  = [NextWithError (UnsupportedMessageType (Some "UnsubscribeConfirmation"))].
Proof.
  rewrite (@unsupported_type_rejected config runtime http_ok foreign_request
             fresh_exchange);
    [reflexivity | intros [Hty | Hty]; discriminate].
Defined.

Lemma missing_body_rejected_witness :
  @handleSNSMessage config runtime http_ok bodyless_request fresh_exchange
  = (Returned tt,
     mkWorld [] (mkExchange [] None ∅ [NextWithError MalformedEnvelope])).
Proof.
  apply (@missing_body_rejected config runtime http_ok bodyless_request
           fresh_exchange);
    [right; reflexivity | reflexivity | left; reflexivity].
Defined.

Lemma handshake_success_acknowledged_witness :
  response (w_state (snd (@handleSNSMessage config runtime http_ok
                            handshake_request fresh_exchange)))
  = Some (200, SuccessResponse 200).
Proof.
  rewrite (@handshake_success_acknowledged config runtime http_ok
             handshake_request fresh_exchange (mkResponse 200)
             handshake_request_passes eq_refl eq_refl eq_refl).
  reflexivity.
Defined.

Lemma mismatched_request_passes : passes_checks mismatched_request.
Proof. repeat split. left. reflexivity. Qed.

Lemma dispatch_ignores_header_witness :
  @handleSNSMessage config runtime http_ok mismatched_request fresh_exchange
  = @handleSNSMessage config runtime http_ok notification_request fresh_exchange.
Proof.
  apply (@dispatch_ignores_header config runtime http_ok mismatched_request
           notification_request fresh_exchange mismatched_request_passes
           notification_request_passes eq_refl).
Defined.

Lemma get_only_on_handshake_witness :
  http_gets (w_state (snd (@handleSNSMessage config runtime http_unreachable
                             notification_request fresh_exchange)))
  = [].
Proof.
  apply (@get_only_on_handshake config runtime http_unreachable
           notification_request fresh_exchange).
  intros [_ Hty]. discriminate.
Defined.

End MoreSubscriberExamples.

End SubscriberMore.

(** ** More on the S3 service *)

Module S3More.
Import S3 S3Spec S3Proofs.

(** An entry of debug severity adds nothing at error severity. *)
Lemma logged_at_debug (log : list LogEntry) (p : LogPayload) :
  logged_at LvlError (log ++ [mkLog LvlDebug p]) = logged_at LvlError log.
Proof. unfold logged_at. rewrite filter_app. apply app_nil_r. Qed.

Section Gateway.
Context `{Config} `{Runtime} {B : Type} `{S3Client B}.

(** Whatever the backend answers, [s3StreamUpload] sends one request: to
    the bucket given (the asset bucket by default), under the key, body
    and content type given, readable by everyone, cached for the
    configured lifetime, and with the caller's metadata exactly when
    there is one. *)
Theorem s3StreamUpload_request (readable : Readable)
    (keyPath contentType : string) (metadata : option Metadata)
    (bucketName : option string) (w : World (S3State B)) :
  exists r,
    calls (w_state (snd (s3StreamUpload readable keyPath contentType metadata
                           bucketName w)))
    = (calls (w_state w) ++ [CallUpload r])%list
    /\ put_Bucket r = default S3_ASSETS_BUCKET bucketName
    /\ put_Key r = keyPath
    /\ put_Body r = readable
    /\ put_ContentType r = contentType
    /\ put_ACL r = "public-read"
    /\ put_CacheControl r = "max-age=" +:+ to_string S3_MAP_TILES_TTL
    /\ put_Metadata r = metadata.
Proof.
  rewrite s3StreamUpload_run.
  exists (upload_request readable keyPath contentType metadata bucketName).
  split.
  - destruct (s3_upload _ _) as [[err | meta] b']; reflexivity.
  - repeat split.
Qed.

(** A rejected upload raises an [UploadError] whose message is the
    backend's behind a fixed prefix, after logging the backend's message
    at error severity; the code of the backend's error is not carried
    over. *)
Theorem s3StreamUpload_failure (readable : Readable)
    (keyPath contentType : string) (metadata : option Metadata)
    (bucketName : option string) (w : World (S3State B))
    (err : JsError) (b' : B) :
  s3_upload (upload_request readable keyPath contentType metadata bucketName)
            (backend (w_state w)) = (inl err, b') ->
  let out := s3StreamUpload readable keyPath contentType metadata bucketName w in
  fst out
  = Thrown (mkError UploadError
              ("Failed to upload file to S3. " +:+ err_message err) JsUndefined)
  /\ w_log (snd out)
     = (w_log w ++ [mkLog LvlError (LogText (err_message err) [])])%list
  /\ backend (w_state (snd out)) = b'.
Proof.
  intros Hsend out. subst out. rewrite s3StreamUpload_run, Hsend. cbn. auto.
Qed.

(** An accepted upload returns what the backend reported: its bucket, key
    and entity tag, and the storage URL joined from the endpoint and the
    reported bucket and key.  The event carries no metadata, even when the
    upload did; nothing is logged at error severity. *)
Theorem s3StreamUpload_success (readable : Readable)
    (keyPath contentType : string) (metadata : option Metadata)
    (bucketName : option string) (w : World (S3State B))
    (meta : SendData) (b' : B) :
  s3_upload (upload_request readable keyPath contentType metadata bucketName)
            (backend (w_state w)) = (inr meta, b') ->
  let out := s3StreamUpload readable keyPath contentType metadata bucketName w in
  fst out
  = Returned (mkEvent (sd_Bucket meta) (sd_Key meta)
                (urljoin [S3_ENDPOINT_URL; sd_Bucket meta; sd_Key meta])
                (sd_ETag meta) None)
  /\ logged_at LvlError (w_log (snd out)) = logged_at LvlError (w_log w)
  /\ backend (w_state (snd out)) = b'.
Proof.
  intros Hsend out. subst out. rewrite s3StreamUpload_run, Hsend. cbn.
  split; [reflexivity |]. split; [| reflexivity].
  apply logged_at_debug.
Qed.

(** A probe that finds the object returns an event with the key and bucket
    asked for, the entity tag and the metadata the backend stored, and
    the storage URL of that bucket and key; it logs nothing at error
    severity. *)
Theorem s3KeyExists_found (keyPath : string) (bucketName : option string)
    (w : World (S3State B)) (meta : HeadObjectOutput) (b' : B) :
  s3_headObject (mkHead (default S3_ASSETS_BUCKET bucketName) keyPath)
                (backend (w_state w)) = (inr meta, b') ->
  let out := s3KeyExists keyPath bucketName w in
  fst out
  = Returned
      (Some (mkEvent (default S3_ASSETS_BUCKET bucketName) keyPath
               (urljoin [S3_ENDPOINT_URL; default S3_ASSETS_BUCKET bucketName;
                         keyPath])
               (ho_ETag meta) (ho_Metadata meta)))
  /\ logged_at LvlError (w_log (snd out)) = logged_at LvlError (w_log w).
Proof.
  intros Hhead out. subst out. rewrite s3KeyExists_run. cbn. rewrite Hhead. cbn.
  split; [reflexivity |].
  apply logged_at_debug.
Qed.

(** A probe is one [headObject] request for the bucket and key asked for,
    whatever the answer: found, not found or failed, it is not tried
    again, and the backend is left in the state that request left it. *)
Theorem s3KeyExists_single_request (keyPath : string)
    (bucketName : option string) (w : World (S3State B)) :
  let config := mkHead (default S3_ASSETS_BUCKET bucketName) keyPath in
  let out := s3KeyExists keyPath bucketName w in
  calls (w_state (snd out)) = (calls (w_state w) ++ [CallHeadObject config])%list
  /\ backend (w_state (snd out))
     = snd (s3_headObject config (backend (w_state w))).
Proof.
  cbv zeta. rewrite s3KeyExists_run.
  destruct (s3_headObject _ _) as [[err | meta] b']; cbn; auto.
Qed.

(** A single prefix given as a string is handled as the one-element list
    of that prefix. *)
Theorem createLifecyclePolicy_string_is_singleton (prefix : string)
    (bucketName : option string) (expDaysTTL : option Z)
    (w : World (S3State B)) :
  createLifecyclePolicy (JsStr prefix) bucketName expDaysTTL w
  = createLifecyclePolicy (JsArr [JsStr prefix]) bucketName expDaysTTL w.
Proof.
  rewrite !createLifecyclePolicy_run.
  - reflexivity.
  - right. exists [prefix]. reflexivity.
  - left. exists prefix. reflexivity.
Qed.

(** The request of [createLifecyclePolicy] carries one rule per prefix, in
    the order given, each enabled, each expiring after the lifetime given
    (one day by default); the empty list of prefixes is accepted and sends
    a configuration without rules. *)
Theorem createLifecyclePolicy_rule_per_prefix (prefixes : list string)
    (bucketName : option string) (expDaysTTL : option Z)
    (w : World (S3State B)) :
  exists r,
    calls (w_state (snd (createLifecyclePolicy (JsArr (map JsStr prefixes))
                           bucketName expDaysTTL w)))
    = (calls (w_state w) ++ [CallPutBucketLifecycleConfiguration r])%list
    /\ lc_Bucket r = default S3_ASSETS_BUCKET bucketName
    /\ map rule_Filter_Prefix (lc_Rules r) = prefixes
    /\ Forall (fun rule => rule_Status rule = "Enabled"
                           /\ rule_Expiration_Days rule = default 1 expDaysTTL)
              (lc_Rules r).
Proof.
  assert (well_shaped (JsArr (map JsStr prefixes))) as Hshape
    by (right; eauto).
  rewrite (createLifecyclePolicy_run _ bucketName expDaysTTL w Hshape).
  eexists. split.
  - destruct (s3_putBucketLifecycleConfiguration _ _) as [[err | res] b'];
      reflexivity.
  - cbn. rewrite as_string_strings. unfold expiration_rules.
    split; [reflexivity |]. split.
    + rewrite map_map. cbn. apply map_id.
    + apply Forall_forall. intros rule [p [-> _]]%list_elem_of_fmap. cbn. auto.
Qed.

End Gateway.
Section MoreS3Examples.
Import Sample MoreSample.

Lemma s3StreamUpload_failure_witness :
  fst (s3StreamUpload "PNGDATA" "tiles/1.png" "image/png" None None no_bucket)
  = Thrown (mkError UploadError
              "Failed to upload file to S3. The specified bucket does not exist"
              JsUndefined).
Proof.
  apply (@s3StreamUpload_failure config runtime MemS3 mem_client
           "PNGDATA" "tiles/1.png" "image/png" None None no_bucket
           NoSuchBucket (backend (w_state no_bucket)) eq_refl).
Defined.

Lemma s3StreamUpload_success_witness :
  fst (s3StreamUpload "PNGDATA" "tiles/1.png" "image/png"
         (Some [("tenant", "t1")]) None empty_assets)
  = Returned (mkEvent "marapp-services-assets-dev" "tiles/1.png"
                "http://localhost:4572/marapp-services-assets-dev/tiles/1.png"
                "etag-7-PNGDATA" None).
Proof.
  apply (@s3StreamUpload_success config runtime MemS3 mem_client
           "PNGDATA" "tiles/1.png" "image/png" (Some [("tenant", "t1")]) None
           empty_assets
           (mkSendData "marapp-services-assets-dev/tiles/1.png" "etag-7-PNGDATA"
              "marapp-services-assets-dev" "tiles/1.png")
           (backend (w_state stocked_assets))
           ltac:(vm_compute; reflexivity)).
Defined.

Lemma s3KeyExists_found_witness :
  fst (s3KeyExists "tiles/1.png" None stocked_assets)
  = Returned
      (Some (mkEvent "marapp-services-assets-dev" "tiles/1.png"
               "http://localhost:4572/marapp-services-assets-dev/tiles/1.png"
               "etag-7-PNGDATA" (Some [("tenant", "t1")]))).
Proof.
  apply (@s3KeyExists_found config runtime MemS3 mem_client "tiles/1.png" None
           stocked_assets
           (mkHeadOutput 7 "etag-7-PNGDATA" (Some [("tenant", "t1")]))
           (backend (w_state stocked_assets))
           ltac:(vm_compute; reflexivity)).
Defined.

End MoreS3Examples.

End S3More.

(** ** More on the reference check *)

Module MongoMore.
Import Mongo MongoSpec MongoProofs.

(** The verdict of the check, with an organization given. *)
Lemma verdict_same_workspace (model : Model) (refIds : list string)
    (organization : string) (w : World DbState) :
  organization <> EmptyString ->
  fst (checkWorkspaceRefs model (Some refIds) organization w) = Returned tt
  <-> same_workspace model refIds organization.
Proof.
  intros Horg. destruct (decide (refIds = [])) as [-> | Hrefs].
  - rewrite (checkWorkspaceRefs_empty model organization w Horg). cbn.
    split; [| reflexivity]. intros _ d _ Href. inversion Href.
  - rewrite (checkWorkspaceRefs_run model refIds organization w Horg Hrefs). cbn.
    pose proof (every_same_organization model refIds organization) as Hevery.
    destruct (forallb _ _).
    + split; [intros _; apply Hevery; reflexivity | reflexivity].
    + split; [discriminate |]. intros Hsame. apply Hevery in Hsame. discriminate.
Qed.

(** There are two verdicts only. *)
Lemma verdict_cases (model : Model) (refIds : list string)
    (organization : string) (w : World DbState) :
  organization <> EmptyString ->
  fst (checkWorkspaceRefs model (Some refIds) organization w) = Returned tt
  \/ fst (checkWorkspaceRefs model (Some refIds) organization w)
     = Thrown CrossTenantReference.
Proof.
  intros Horg. destruct (decide (refIds = [])) as [-> | Hrefs].
  - rewrite (checkWorkspaceRefs_empty model organization w Horg). auto.
  - rewrite (checkWorkspaceRefs_run model refIds organization w Horg Hrefs). cbn.
    destruct (forallb _ _); auto.
Qed.

(** Two checks with the same verdict on success have the same verdict. *)
Lemma verdict_eq (model1 model2 : Model) (refs1 refs2 : list string)
    (organization : string) (w1 w2 : World DbState) :
  organization <> EmptyString ->
  (same_workspace model1 refs1 organization
   <-> same_workspace model2 refs2 organization) ->
  fst (checkWorkspaceRefs model1 (Some refs1) organization w1)
  = fst (checkWorkspaceRefs model2 (Some refs2) organization w2).
Proof.
  intros Horg Hiff.
  pose proof (verdict_same_workspace model1 refs1 organization w1 Horg) as H1.
  pose proof (verdict_same_workspace model2 refs2 organization w2 Horg) as H2.
  destruct (verdict_cases model1 refs1 organization w1 Horg) as [E1 | E1];
    destruct (verdict_cases model2 refs2 organization w2 Horg) as [E2 | E2];
    rewrite E1, E2; try reflexivity; exfalso.
  - rewrite E2 in H2. apply H1, Hiff, H2 in E1. discriminate.
  - rewrite E1 in H1. apply H2, Hiff, H1 in E2. discriminate.
Qed.

(** The store is queried at most once, and only when there is an
    organization and at least one reference; the query then names exactly
    the references given.  Absent references ([undefined]) pass without a
    query.  Without an organization the check fails at once with a plain
    [Error], not the 400 [DocumentError], whatever the references. *)
Theorem checkWorkspaceRefs_queries (model : Model)
    (refIds : option (list string)) (organization : string)
    (w : World DbState) :
  let out := checkWorkspaceRefs model refIds organization w in
  (refIds = None \/ refIds = Some [] \/ organization = EmptyString ->
   snd out = w)
  /\ (forall ids,
        refIds = Some ids -> ids <> [] -> organization <> EmptyString ->
        queries (w_state (snd out)) = (queries (w_state w) ++ [ids])%list)
  /\ (refIds = None -> organization <> EmptyString -> fst out = Returned tt)
  /\ (organization = EmptyString ->
      fst out
      = Thrown (mkError PlainError "Missing required parameter: organization"
                        JsUndefined)).
Proof.
  cbv zeta. split; [| split; [| split]].
  - intros Hcase.
    destruct (decide (organization = EmptyString)) as [-> | Horg];
      [reflexivity |].
    destruct Hcase as [-> | [-> | ->]]; [| | contradiction].
    + unfold checkWorkspaceRefs. cbn [truthy].
      rewrite bool_decide_eq_false_2 by exact Horg. reflexivity.
    + rewrite (checkWorkspaceRefs_empty model organization w Horg). reflexivity.
  - intros ids -> Hids Horg.
    rewrite (checkWorkspaceRefs_run model ids organization w Horg Hids).
    reflexivity.
  - intros -> Horg. unfold checkWorkspaceRefs. cbn [truthy].
    rewrite bool_decide_eq_false_2 by exact Horg. reflexivity.
  - intros ->. reflexivity.
Qed.

(** The check of two lists of references put together succeeds exactly
    when the check of each succeeds. *)
Theorem checkWorkspaceRefs_append (model : Model) (refs1 refs2 : list string)
    (organization : string) (w : World DbState) :
  organization <> EmptyString ->
  fst (checkWorkspaceRefs model (Some (refs1 ++ refs2)%list) organization w)
  = Returned tt
  <-> fst (checkWorkspaceRefs model (Some refs1) organization w) = Returned tt
      /\ fst (checkWorkspaceRefs model (Some refs2) organization w) = Returned tt.
Proof.
  intros Horg. rewrite !verdict_same_workspace by exact Horg.
  unfold same_workspace. split.
  - intros Hall. split; intros d Hin Href; apply Hall; try assumption;
      apply elem_of_app; auto.
  - intros [Hall1 Hall2] d Hin [Href | Href]%elem_of_app; auto.
Qed.

(** The verdict depends on which ids are referenced, not on their order
    nor on how often each occurs. *)
Theorem checkWorkspaceRefs_same_ids (model : Model) (refs1 refs2 : list string)
    (organization : string) (w : World DbState) :
  organization <> EmptyString ->
  (forall id, id ∈ refs1 <-> id ∈ refs2) ->
  fst (checkWorkspaceRefs model (Some refs1) organization w)
  = fst (checkWorkspaceRefs model (Some refs2) organization w).
Proof.
  intros Horg Hsame. apply verdict_eq; [exact Horg |].
  unfold same_workspace. split; intros Hall d Hin Href; apply Hall;
    try assumption; apply Hsame; assumption.
Qed.

(** References to ids that no stored document has change nothing in the
    verdict: a dangling reference is not noticed. *)
Theorem checkWorkspaceRefs_dangling (model : Model) (refIds dangling : list string)
    (organization : string) (w : World DbState) :
  organization <> EmptyString ->
  (forall d, d ∈ model -> doc_id d ∉ dangling) ->
  fst (checkWorkspaceRefs model (Some (refIds ++ dangling)%list) organization w)
  = fst (checkWorkspaceRefs model (Some refIds) organization w).
Proof.
  intros Horg Hdangling. apply verdict_eq; [exact Horg |].
  unfold same_workspace. split; intros Hall d Hin Href.
  - apply Hall; [assumption |]. apply elem_of_app. auto.
  - apply elem_of_app in Href as [Href | Href]; [auto |].
    exfalso. exact (Hdangling d Hin Href).
Qed.

(** Stored documents that are not referenced change nothing in the
    verdict. *)
Theorem checkWorkspaceRefs_unreferenced (model others : Model)
    (refIds : list string) (organization : string) (w : World DbState) :
  organization <> EmptyString ->
  (forall d, d ∈ others -> doc_id d ∉ refIds) ->
  fst (checkWorkspaceRefs (model ++ others)%list (Some refIds) organization w)
  = fst (checkWorkspaceRefs model (Some refIds) organization w).
Proof.
  intros Horg Hothers. apply verdict_eq; [exact Horg |].
  unfold same_workspace. split; intros Hall d Hin Href.
  - apply Hall; [| assumption]. apply elem_of_app. auto.
  - apply elem_of_app in Hin as [Hin | Hin]; [auto |].
    exfalso. exact (Hothers d Hin Href).
Qed.

Section MoreMongoExamples.
Import Sample.

Lemma checkWorkspaceRefs_queries_witness :
  checkWorkspaceRefs layers None "org-a" fresh_db = (Returned tt, fresh_db)
  /\ queries (w_state (snd (checkWorkspaceRefs layers
                              (Some ["5f0000000000000000000003"]) "org-a"
                              fresh_db)))
     = [["5f0000000000000000000003"]]
  /\ checkWorkspaceRefs layers (Some ["5f0000000000000000000003"]) EmptyString
       fresh_db
     = (Thrown (mkError PlainError "Missing required parameter: organization"
                        JsUndefined), fresh_db).
Proof.
  split; [| split].
  - destruct (checkWorkspaceRefs_queries layers None "org-a" fresh_db)
      as (Hsame & _ & Hok & _).
    apply injective_projections; cbn [fst snd].
    + apply Hok; [reflexivity | discriminate].
    + apply Hsame. left. reflexivity.
  - destruct (checkWorkspaceRefs_queries layers
                (Some ["5f0000000000000000000003"]) "org-a" fresh_db)
      as (_ & Hquery & _).
    apply (Hquery ["5f0000000000000000000003"]);
      [reflexivity | discriminate | discriminate].
  - destruct (checkWorkspaceRefs_queries layers
                (Some ["5f0000000000000000000003"]) EmptyString fresh_db)
      as (Hsame & _ & _ & Hfail).
    apply injective_projections; cbn [fst snd].
    + apply Hfail. reflexivity.
    + apply Hsame. right. right. reflexivity.
Defined.

Lemma checkWorkspaceRefs_append_witness :
  fst (checkWorkspaceRefs layers
         (Some (["5f0000000000000000000001"] ++ ["5f0000000000000000000002"])%list)
         "org-a" fresh_db) = Returned tt.
Proof.
  apply (checkWorkspaceRefs_append layers ["5f0000000000000000000001"]
           ["5f0000000000000000000002"] "org-a" fresh_db);
    [discriminate | split; reflexivity].
Defined.

Lemma checkWorkspaceRefs_same_ids_witness :
  fst (checkWorkspaceRefs layers
         (Some ["5f0000000000000000000003"; "5f0000000000000000000001";
                "5f0000000000000000000003"]) "org-a" fresh_db)
  = fst (checkWorkspaceRefs layers
           (Some ["5f0000000000000000000001"; "5f0000000000000000000003"])
           "org-a" fresh_db).
Proof.
  apply (checkWorkspaceRefs_same_ids layers);
    [discriminate | intros id; rewrite !elem_of_cons, !elem_of_nil; tauto].
Defined.

Lemma checkWorkspaceRefs_dangling_witness :
  fst (checkWorkspaceRefs layers
         (Some (["5f0000000000000000000001"] ++ ["5f00000000000000000000ff"])%list)
         "org-a" fresh_db)
  = fst (checkWorkspaceRefs layers (Some ["5f0000000000000000000001"])
           "org-a" fresh_db).
Proof.
  apply (checkWorkspaceRefs_dangling layers); [discriminate |].
  intros d Hin Href. unfold layers in Hin.
  apply list_elem_of_singleton in Href.
  repeat (apply elem_of_cons in Hin as [-> | Hin]; [discriminate |]).
  inversion Hin.
Defined.

Lemma checkWorkspaceRefs_unreferenced_witness :
  fst (checkWorkspaceRefs
         ([mkDoc "5f0000000000000000000001" (JsStr "org-a")]
            ++ [mkDoc "5f0000000000000000000003" (JsStr "org-b")])%list
         (Some ["5f0000000000000000000001"]) "org-a" fresh_db)
  = fst (checkWorkspaceRefs [mkDoc "5f0000000000000000000001" (JsStr "org-a")]
           (Some ["5f0000000000000000000001"]) "org-a" fresh_db).
Proof.
  apply (checkWorkspaceRefs_unreferenced
           [mkDoc "5f0000000000000000000001" (JsStr "org-a")]
           [mkDoc "5f0000000000000000000003" (JsStr "org-b")]);
    [discriminate |].
  intros d Hin Href.
  apply list_elem_of_singleton in Hin as ->.
  apply list_elem_of_singleton in Href. discriminate.
Defined.

End MoreMongoExamples.

End MongoMore.

(** ** The schema transform *)

Module SchemaProofs.
Import Schema.

(** The transform moves [_id] to [id] and drops [__v]: afterwards [id]
    holds what [_id] held ([undefined] when there was none), [_id] and
    [__v] are gone, and every other property is as it was.  The transform
    of [toJSON] does the same. *)
Theorem transform_exposes_id (doc : JsValue) (ret : gmap string JsValue) :
  toObject_transform doc ret !! "id" = Some (default JsUndefined (ret !! "_id"))
  /\ toObject_transform doc ret !! "_id" = None
  /\ toObject_transform doc ret !! "__v" = None
  /\ (forall k, k <> "id" -> k <> "_id" -> k <> "__v" ->
                toObject_transform doc ret !! k = ret !! k)
  /\ toJSON_transform doc ret = toObject_transform doc ret.
Proof.
  unfold toObject_transform, toJSON_transform. cbv zeta.
  split; [| split; [| split; [| split]]].
  - rewrite lookup_delete_ne by discriminate.
    rewrite lookup_delete_ne by discriminate.
    apply lookup_insert_eq.
  - rewrite lookup_delete_ne by discriminate. apply lookup_delete_eq.
  - apply lookup_delete_eq.
  - intros k Hid Hraw Hv.
    rewrite lookup_delete_ne by congruence.
    rewrite lookup_delete_ne by congruence.
    apply lookup_insert_ne. congruence.
  - reflexivity.
Qed.

(** The transform is not idempotent: applied to its own result it finds no
    [_id] any more and overwrites [id] with [undefined]. *)
Theorem transform_twice_loses_id (doc doc' : JsValue) (ret : gmap string JsValue) :
  toObject_transform doc' (toObject_transform doc ret) !! "id" = Some JsUndefined
  /\ toJSON_transform doc' (toObject_transform doc ret) !! "id" = Some JsUndefined.
Proof.
  assert (toObject_transform doc ret !! "_id" = None) as Hraw.
  { unfold toObject_transform. cbv zeta.
    rewrite lookup_delete_ne by discriminate. apply lookup_delete_eq. }
  split.
  - unfold toObject_transform at 1. cbv zeta.
    rewrite !lookup_delete_ne by discriminate.
    rewrite lookup_insert_eq, Hraw. reflexivity.
  - unfold toJSON_transform. cbv zeta.
    rewrite !lookup_delete_ne by discriminate.
    rewrite lookup_insert_eq, Hraw. reflexivity.
Qed.

Section SchemaExamples.
Import MoreSample.

Lemma transform_exposes_id_witness :
  toObject_transform JsNull stored_layer !! "id"
  = Some (JsStr "5f0000000000000000000001")
  /\ toObject_transform JsNull stored_layer !! "name" = Some (JsStr "Forests").
Proof.
  destruct (transform_exposes_id JsNull stored_layer) as (Hid & _ & _ & Hrest & _).
  split.
  - rewrite Hid. reflexivity.
  - rewrite Hrest by discriminate. reflexivity.
Defined.

End SchemaExamples.

End SchemaProofs.

(** ** The page of groups *)

Module OrganizationsProofs.
Import Organizations.

(** A slice from a non-negative offset over a non-negative width, in list
    terms. *)
Lemma slice_window {A : Type} (xs : list A) (offset width : Z) :
  0 <= offset -> 0 <= width ->
  slice xs (Num offset) (Num (offset + width))
  = take (Z.to_nat width) (drop (Z.to_nat offset) xs).
Proof.
  intros Hoff Hwidth. unfold slice, slice_index.
  destruct (Z.ltb_spec offset 0) as [? | _]; [lia |].
  destruct (Z.ltb_spec (offset + width) 0) as [? | _]; [lia |].
  set (len := Z.of_nat (length xs)).
  destruct (Z.le_gt_cases len offset) as [Hout | Hin].
  - rewrite (drop_ge xs (Z.to_nat offset)) by lia.
    rewrite (drop_ge xs (Z.to_nat (Z.min offset len))) by lia.
    rewrite !take_nil. reflexivity.
  - replace (Z.min offset len) with offset by lia.
    destruct (Z.le_gt_cases (offset + width) len) as [Hfit | Hover].
    + f_equal. lia.
    + replace (Z.min (offset + width) len) with len by lia.
      rewrite !take_ge; [reflexivity | |]; rewrite length_drop; lia.
Qed.

(** A slice that starts or ends at [NaN] is empty. *)
Lemma slice_NaN {A : Type} (xs : list A) (i : JsNumber) :
  slice xs NaN NaN = [] /\ slice xs i NaN = [].
Proof.
  unfold slice. cbn [slice_index]. split.
  - reflexivity.
  - replace (Z.max (0 - slice_index (Z.of_nat (length xs)) i) 0) with 0;
      [reflexivity |].
    unfold slice_index. destruct i as [| n]; [reflexivity |].
    destruct (Z.ltb_spec n 0); lia.
Qed.


(** The page returned, in list terms: with [p] the page and [s] the size
    brought into range, it is the [s] groups that follow the first
    [(p - 1) * s]. *)
Theorem paginatedGroups_window (all : list (list (string * JsValue)))
    (pageNumber pageSize : Z) :
  let p := Z.max pageNumber 1 in
  let s := Z.min (Z.max pageSize 0) 25 in
  paginatedGroups all (Num pageNumber) (Num pageSize)
  = take (Z.to_nat s) (drop (Z.to_nat ((p - 1) * s)) (groups all)).
Proof.
  intros p s. unfold paginatedGroups, paginationOffset, pageOptions.
  cbn [page size Math_max Math_min num_sub num_mul num_add]. fold p s.
  apply (slice_window (groups all) ((p - 1) * s) s); subst p s;
    [apply Z.mul_nonneg_nonneg; lia | lia].
Qed.

(** No page holds more than 25 groups, whatever is asked for. *)
Theorem paginatedGroups_at_most_25 (all : list (list (string * JsValue)))
    (pageNumber pageSize : JsNumber) :
  (length (paginatedGroups all pageNumber pageSize) <= 25)%nat.
Proof.
  destruct pageNumber as [| n], pageSize as [| s];
    try (unfold paginatedGroups, paginationOffset, pageOptions; cbn;
         rewrite (proj1 (slice_NaN _ NaN)); cbn; lia).
  rewrite paginatedGroups_window. rewrite length_take. lia.
Qed.

(** A page or a size that did not parse gives the empty page: no error,
    and not the first page either. *)
Theorem paginatedGroups_NaN (all : list (list (string * JsValue)))
    (n : JsNumber) :
  paginatedGroups all NaN n = [] /\ paginatedGroups all n NaN = [].
Proof.
  split.
  - unfold paginatedGroups, paginationOffset, pageOptions. cbn.
    apply (slice_NaN (groups all) NaN).
  - unfold paginatedGroups, paginationOffset, pageOptions.
    destruct n as [| n]; cbn; apply (slice_NaN (groups all) NaN).
Qed.

(** Pages 1 to [k] of a given size, one after the other, are the first
    [k] times that size groups: no group is skipped and none comes twice. *)
Theorem pages_cover (all : list (list (string * JsValue)))
    (pageSize : Z) (k : nat) :
  let s := Z.to_nat (Z.min (Z.max pageSize 0) 25) in
  concat (map (fun i => paginatedGroups all (Num (Z.of_nat i + 1)) (Num pageSize))
              (seq 0 k))
  = take (k * s) (groups all).
Proof.
  intros s. induction k as [| k IH].
  - reflexivity.
  - rewrite seq_S, map_app, concat_app, IH. cbn [map concat Nat.add].
    rewrite app_nil_r, paginatedGroups_window.
    replace (Z.max (Z.of_nat k + 1) 1 - 1) with (Z.of_nat k) by lia.
    replace (Z.to_nat (Z.of_nat k * Z.min (Z.max pageSize 0) 25))
      with (k * s)%nat by (subst s; lia).
    fold s. rewrite take_take_drop. f_equal. lia.
Qed.

(** Only groups with a [nested] property are listed, and of a listed
    group only the name, the description and the id (its [_id]) are
    given: any other property reads as [undefined]. *)
Theorem groups_listed (all : list (list (string * JsValue))) (v : JsValue) :
  v ∈ groups all ->
  exists group,
    group ∈ all
    /\ has_property "nested" group = true
    /\ get_prop v "name" = assoc "name" group
    /\ get_prop v "description" = assoc "description" group
    /\ get_prop v "id" = assoc "_id" group
    /\ (forall k, k <> "name" -> k <> "description" -> k <> "id" ->
                  get_prop v k = JsUndefined).
Proof.
  unfold groups. intros (group & -> & Hin)%list_elem_of_fmap.
  apply list_elem_of_filter in Hin as [Hnested Hin].
  exists group. repeat split; try assumption.
  intros k Hname Hdesc Hid. cbn.
  rewrite !bool_decide_eq_false_2 by congruence. reflexivity.
Qed.

Section OrganizationsExamples.
Import MoreSample.


Lemma groups_listed_witness :
  exists group,
    group ∈ authz_groups
    /\ has_property "nested" group = true
    /\ assoc "_id" group = JsStr "g3".
Proof.
  destruct (groups_listed authz_groups
              (JsObj [("name", JsStr "ORG-B"); ("description", JsUndefined);
                      ("id", JsStr "g3")]))
    as (group & Hin & Hnested & _ & _ & Hid & _).
  - unfold authz_groups, groups. cbn. set_solver.
  - exists group. cbn in Hid. auto.
Defined.

End OrganizationsExamples.

End OrganizationsProofs.
